(** * goukv: a uniform key-value contract over two storage engines

    Shallow embedding of the provider adapters of the repository
    (package [leveldb], package [badgerdb]) together with the error values of
    package [goukv], and the properties of the Provider contract they are
    expected to meet.

    Conventions of the embedding.
    - A Go [[]byte] that is known to be non-nil is a [bytes] (a Rocq [string],
      i.e. a list of 8-bit characters, compared lexicographically by
      [String.compare] as Go's [bytes.Compare] does).  A slice that may be
      [nil] is an [option bytes]: [None] is [nil], [Some ""] is the empty,
      non-nil slice.
    - A Go [error] is an [option error]: [None] is [nil].
    - [time.Now()] is an explicit argument [now : Z] (seconds).
    - The storage engines are external; each provider module starts with the
      model of the engine interface it calls, with the failures an engine call
      can report carried by the engine handle (fault injection). *)

From Stdlib Require Import ZArith String Ascii List Bool Lia OrdersEx.
From stdpp Require Import base option list gmap strings sorting.

Set Default Proof Using "Type".

(** ** Byte sequences and their order *)

Abbreviation bytes := string (only parsing).

Module gobytes.

(** [bytes.Equal]. *)
Definition Equal (a b : bytes) : bool := String.eqb a b.

(** [bytes.HasPrefix s prefix]. *)
Definition HasPrefix (s prefix : bytes) : bool := String.prefix prefix s.

(** [len(b)] of a slice that may be nil. *)
Definition len (b : option bytes) : nat :=
  match b with
  | None => 0
  | Some s => String.length s
  end.

(** The order of [bytes.Compare]. *)
Definition lt (a b : bytes) : Prop := String.compare a b = Lt.
Definition le (a b : bytes) : Prop := Is_true (String.leb a b).

End gobytes.

(** ** Package goukv: errors, entries, scan options *)

Module goukv.

(** The five sentinel errors of [errors.go]; the remaining constructors
    are the error values that reach the providers from outside the package:
    the engines' own not-found sentinels, [os]'s not-exist error, and any
    other error value, identified by its message. *)
Inductive error : Type :=
| ErrDriverAlreadyExists
| ErrDriverNotFound
| ErrNoScanner
| ErrScanDone
| ErrKeyNotFound
| LeveldbErrNotFound
| BadgerErrKeyNotFound
| OsErrNotExist
| ErrorsNew (msg : string).

#[global] Instance error_eq_dec : EqDecision error.
Proof. solve_decision. Defined.

(** Modelled from the spec: the declaration of [Entry] is not among the
    sources; the spec gives it as a key, a value that may be absent, and a
    duration whose zero means no expiry. *)
Record Entry : Type := mkEntry {
  Key : bytes;
  Value : option bytes;
  TTL : Z
}.

(** Modelled from the spec: the declaration of [ScanOpts] is not among the
    sources.  The callback is a closure; its captured variables are the
    explicit state [S] threaded through the calls. *)
Record ScanOpts (S : Type) : Type := mkScanOpts {
  Prefix : option bytes;
  Offset : option bytes;
  ReverseScan : bool;
  IncludeOffset : bool;
  Scanner : option (S → bytes → bytes → S * option error)
}.
Arguments mkScanOpts {S}.
Arguments Prefix {S}.
Arguments Offset {S}.
Arguments ReverseScan {S}.
Arguments IncludeOffset {S}.
Arguments Scanner {S}.

(** How a call ends: it returns (with the callback's state and the Go
    [error]), or the goroutine panics, or the model's loop budget ran out
    (shown below never to happen). *)
Inductive outcome (S : Type) : Type :=
| Returned (st : S) (err : option error)
| Panicked (st : S)
| OutOfFuel (st : S).
Arguments Returned {S}.
Arguments Panicked {S}.
Arguments OutOfFuel {S}.

(** What a fallible constructor returns: Go's [(value, error)] pair with
    exactly one side set. *)
Inductive result (A : Type) : Type :=
| Ok (a : A)
| Err (e : error).
Arguments Ok {A}.
Arguments Err {A}.

(** [map[string]interface{}]: the dynamic values that option maps hold. *)
Inductive any : Type :=
| AString (s : string)
| ABool (b : bool)
| AInt (z : Z)
| ANil.

(** The type assertions [v.(string)] and [v.(bool)] in their two-result
    form, applied to the result of a map index expression (a missing key
    yields the nil interface, on which every assertion fails). *)
Definition assert_string (v : option any) : string * bool :=
  match v with
  | Some (AString s) => (s, true)
  | _ => (EmptyString, false)
  end.

Definition assert_bool (v : option any) : bool * bool :=
  match v with
  | Some (ABool b) => (b, true)
  | _ => (false, false)
  end.

End goukv.

(** ** The operating-system calls made by [Open] *)

Module os.
Import goukv.

Definition FileMode := Z.

(** [os.ModePerm], the permission bits [0o777]. *)
Definition ModePerm : FileMode := 511%Z.

(** [filepath.Dir] belongs to Go's library, not to the repository: it is a
    parameter of the development. *)
Class Platform : Type := { filepath_Dir : string → string }.

(** The part of the file system [Open] looks at: the directories that exist,
    with their permission bits, and the failures the system may answer with
    (a [Stat] failure other than not-exist, a refused [MkdirAll]). *)
Record FS : Type := mkFS {
  dirs : gmap string FileMode;
  stat_fault : option error;
  mkdir_fault : option error
}.

(** [os.Stat(name)]: the error half of the result. *)
Definition Stat (fs : FS) (name : string) : option error :=
  match stat_fault fs with
  | Some e => Some e
  | None => match dirs fs !! name with
            | Some _ => None
            | None => Some OsErrNotExist
            end
  end.

(** [os.IsNotExist(err)]. *)
Definition IsNotExist (err : option error) : bool :=
  match err with
  | Some OsErrNotExist => true
  | _ => false
  end.

Section MkdirAll.
Context `{Platform}.

(** The chain of parents of [path], nearest first, up to the root (where
    [filepath.Dir] is the identity). *)
Fixpoint parents (fuel : nat) (path : string) : list string :=
  match fuel with
  | O => []
  | S fuel' =>
      let d := filepath_Dir path in
      if String.eqb d path then [] else d :: parents fuel' d
  end.

(** A directory that is already there keeps its mode. *)
Definition mkdir_if_missing (perm : FileMode) (ds : gmap string FileMode)
    (d : string) : gmap string FileMode :=
  match ds !! d with
  | Some _ => ds
  | None => <[d := perm]> ds
  end.

(** [os.MkdirAll(path, perm)]: creates [path] and every missing parent
    with mode [perm], or reports an error and creates nothing. *)
Definition MkdirAll (fs : FS) (path : string) (perm : FileMode)
    : FS * option error :=
  match mkdir_fault fs with
  | Some e => (fs, Some e)
  | None =>
      (mkFS (foldl (mkdir_if_missing perm) (dirs fs)
               (path :: parents (String.length path) path))
            (stat_fault fs) (mkdir_fault fs),
       None)
  end.
End MkdirAll.

(** A [filepath.Dir] for slash-separated paths without [.] and [..]
    elements: everything before the last separator. *)
Fixpoint dir_of (path : string) : string * bool :=
  match path with
  | EmptyString => (EmptyString, false)
  | String c rest =>
      let '(d, found) := dir_of rest in
      if found then (String c d, true)
      else if Ascii.eqb c "/"%char then (EmptyString, true)
      else (EmptyString, false)
  end.

Definition unix_Dir (path : string) : string :=
  match dir_of path with
  | (_, false) => "."%string
  | (EmptyString, true) => "/"%string
  | (d, true) => d
  end.

Definition unix : Platform := {| filepath_Dir := unix_Dir |}.

End os.

(** ** The goleveldb engine, as the leveldb provider uses it

    The engine is an external collaborator.  Its model keeps what the
    provider can observe: a table ordered by key, write batches that are
    applied whole or not at all, iterators over a key range, the options that
    govern [fsync], and the errors the engine may report. *)

Module goleveldb.
Import goukv.

(** [opt.Options], the fields the provider sets. *)
Record Options : Type := mkOptions {
  Filter : Z;
  ErrorIfMissing : bool;
  Compression : Z;
  NoSync : bool
}.

(** [opt.WriteOptions]. *)
Record WriteOptions : Type := mkWriteOptions { Sync : bool }.

(** One record of a [leveldb.Batch]. *)
Inductive op : Type :=
| OpPut (k v : bytes)
| OpDelete (k : bytes).

Definition Batch := list op.

Definition Batch_Put (b : Batch) (k v : bytes) : Batch := b ++ [OpPut k v].
Definition Batch_Delete (b : Batch) (k : bytes) : Batch := b ++ [OpDelete k].

(** What is on disk, and the errors this storage answers with. *)
Record Storage : Type := mkStorage {
  table : gmap string string;
  read_fault : option error;
  write_fault : option error;
  iter_fault : option error
}.

(** An open database: its options, its storage, and the journal of the
    batches committed through this handle, each with whether the engine
    synced it to disk before acknowledging. *)
Record DB : Type := mkDB {
  o : Options;
  storage : Storage;
  journal : list (Batch * bool)
}.

(** The engine's disks: what opening a path yields, given the directories
    that exist at that moment. *)
Definition Disk := gmap string os.FileMode → string → result Storage.

(** [leveldb.OpenFile(path, o)]. *)
Definition OpenFile (disk : Disk) (fs : os.FS) (path : string) (o : Options)
    : result DB :=
  match disk (os.dirs fs) path with
  | Err e => Err e
  | Ok s => Ok (mkDB o s [])
  end.

Definition apply_op (t : gmap string string) (x : op) : gmap string string :=
  match x with
  | OpPut k v => <[k := v]> t
  | OpDelete k => delete k t
  end.

(** Whether a write is synced before it is acknowledged: the write asks for
    it ([Sync]) and the database has not switched [fsync] off ([NoSync]). *)
Definition synced (o : Options) (wo : WriteOptions) : bool :=
  Sync wo && negb (NoSync o).

(** [db.Write(batch, wo)]: the batch is applied atomically, in record
    order, or the write fails and nothing is applied. *)
Definition Write (d : DB) (b : Batch) (wo : WriteOptions)
    : DB * option error :=
  match write_fault (storage d) with
  | Some e => (d, Some e)
  | None =>
      let s := storage d in
      (mkDB (o d)
            (mkStorage (foldl apply_op (table s) b)
                       (read_fault s) (write_fault s) (iter_fault s))
            (journal d ++ [(b, synced (o d) wo)]),
       None)
  end.

(** [db.Put(key, value, wo)] and [db.Delete(key, wo)] are one-record
    batches. *)
Definition Put (d : DB) (k v : bytes) (wo : WriteOptions) : DB * option error :=
  Write d [OpPut k v] wo.

Definition Delete (d : DB) (k : bytes) (wo : WriteOptions) : DB * option error :=
  Write d [OpDelete k] wo.

(** [db.Get(key, nil)]. *)
Definition Get (d : DB) (k : bytes) : option bytes * option error :=
  match read_fault (storage d) with
  | Some e => (None, Some e)
  | None =>
      match table (storage d) !! k with
      | Some v => (Some v, None)
      | None => (None, Some LeveldbErrNotFound)
      end
  end.

(** *** Iterators *)

Definition entry : Type := string * string.

Definition entry_le (x y : entry) : Prop := gobytes.le x.1 y.1.

#[global] Instance entry_le_dec : RelDecision entry_le.
Proof. intros x y. unfold entry_le, gobytes.le. apply _. Defined.

(** The table in key order. *)
Definition entries (t : gmap string string) : list entry :=
  merge_sort entry_le (map_to_list t).

(** [util.Range], as built by [util.BytesPrefix]. *)
Inductive Range : Type := BytesPrefix (prefix : bytes).

Definition in_range (slice : option Range) (x : entry) : bool :=
  match slice with
  | None => true
  | Some (BytesPrefix p) => gobytes.HasPrefix x.1 p
  end.

(** An iterator is a cursor in the ordered entries of its range: the
    entries before the cursor (nearest first), the entry under it, the
    entries after it.  With no entry under the cursor the iterator is
    exhausted, or not yet positioned. *)
Record Iterator : Type := mkIterator {
  behind : list entry;
  here : option entry;
  ahead : list entry;
  err : option error
}.

(** [db.NewIterator(slice, nil)]. *)
Definition NewIterator (d : DB) (slice : option Range) : Iterator :=
  mkIterator [] None
    (List.filter (in_range slice) (entries (table (storage d))))
    (iter_fault (storage d)).

Definition all (it : Iterator) : list entry :=
  List.rev (behind it) ++ option_list (here it) ++ ahead it.

(** [iter.First()]. *)
Definition First (it : Iterator) : bool * Iterator :=
  match all it with
  | [] => (false, mkIterator [] None [] (err it))
  | x :: l => (true, mkIterator [] (Some x) l (err it))
  end.

(** [iter.Last()]. *)
Definition Last (it : Iterator) : bool * Iterator :=
  match List.rev (all it) with
  | [] => (false, mkIterator [] None [] (err it))
  | x :: l => (true, mkIterator l (Some x) [] (err it))
  end.

(** The cursor moved forward from the start of [l] to the first entry whose
    key is greater than or equal to [key]. *)
Fixpoint seek_ge (key : bytes) (passed l : list entry)
    : list entry * option entry * list entry :=
  match l with
  | [] => (passed, None, [])
  | x :: l' =>
      if String.leb key x.1 then (passed, Some x, l')
      else seek_ge key (x :: passed) l'
  end.

(** [iter.Seek(key)]: moves to the first entry whose key is greater than or
    equal to [key]; reports whether such an entry exists. *)
Definition Seek (it : Iterator) (key : bytes) : bool * Iterator :=
  let '(b, h, a) := seek_ge key [] (all it) in
  (bool_decide (is_Some h), mkIterator b h a (err it)).

(** [iter.Next()]; on an iterator that is before the first entry it is
    [First]. *)
Definition Next (it : Iterator) : bool * Iterator :=
  match here it with
  | None =>
      match behind it with
      | [] => First it
      | _ => (false, it)
      end
  | Some x =>
      match ahead it with
      | [] => (false, mkIterator (x :: behind it) None [] (err it))
      | y :: l => (true, mkIterator (x :: behind it) (Some y) l (err it))
      end
  end.

(** [iter.Prev()]; on an iterator that ran off the end it is [Last]. *)
Definition Prev (it : Iterator) : bool * Iterator :=
  match here it with
  | None =>
      match behind it with
      | [] => (false, it)
      | _ => Last it
      end
  | Some x =>
      match behind it with
      | [] => (false, mkIterator [] None (x :: ahead it) (err it))
      | y :: l => (true, mkIterator l (Some y) (x :: ahead it) (err it))
      end
  end.

Definition Valid (it : Iterator) : bool := bool_decide (is_Some (here it)).
Definition Key (it : Iterator) : option bytes := fst <$> here it.
Definition Value (it : Iterator) : option bytes := snd <$> here it.
Definition Error (it : Iterator) : option error := err it.

End goleveldb.

(** ** Package leveldb: the provider without native expiry *)

Module leveldb.
Import goukv.

(** *** The value codec

    Modelled from the spec: the file of this package that declares the
    stored value, [EntryToValue], [BytesToValue], [Bytes] and [IsExpired] is
    not among the sources.  The spec gives the stored payload as a raw value
    with an optional absolute expiry, a codec that decodes what it encoded,
    and the expiry test. *)
Record StoredValue : Type := mkValue {
  Value : bytes;
  Expires : option Z
}.

Class Codec : Type := {
  Bytes : StoredValue → bytes;
  BytesToValue : bytes → StoredValue;
  decode_encode : ∀ v, BytesToValue (Bytes v) = v
}.

(** Modelled from the spec: false when the expiry is absent, otherwise
    true iff [now >= expiresAt]. *)
Definition IsExpired (now : Z) (v : StoredValue) : bool :=
  match Expires v with
  | None => false
  | Some t => (t <=? now)%Z
  end.

(** Modelled from the spec: the expiry is absent iff the entry's TTL is
    zero. *)
Definition EntryToValue (now : Z) (e : Entry) : StoredValue :=
  mkValue (default EmptyString (goukv.Value e))
          (if (TTL e =? 0)%Z then None else Some (now + TTL e)%Z).

(** *** provider.go *)

Record Provider : Type := mkProvider {
  db : goleveldb.DB;
  syncWrites : bool
}.

Section Open.
Context `{os.Platform}.

Definition Open (disk : goleveldb.Disk) (fs : os.FS)
    (opts : gmap string any) : result Provider * os.FS :=
  let '(path, ok) := assert_string (opts !! "path"%string) in
  if negb ok then (Err (ErrorsNew "must specify path"), fs)
  else
    let dir := os.filepath_Dir path in
    let '(fs, failed) :=
      if os.IsNotExist (os.Stat fs dir)
      then os.MkdirAll fs dir os.ModePerm
      else (fs, None) in
    match failed with
    | Some err => (Err err, fs)
    | None =>
        let '(syncWrites, ok) := assert_bool (opts !! "sync_writes"%string) in
        let syncWrites := if negb ok then false else syncWrites in
        let o := goleveldb.mkOptions 10 false 9 syncWrites in
        match goleveldb.OpenFile disk fs path o with
        | Err err => (Err err, fs)
        | Ok db => (Ok (mkProvider db syncWrites), fs)
        end
    end.
End Open.

Section Operations.
Context `{Codec}.

Definition with_db (p : Provider) (r : goleveldb.DB * option error)
    : Provider * option error :=
  (mkProvider r.1 (syncWrites p), r.2).

Definition Put (now : Z) (p : Provider) (e : Entry)
    : Provider * option error :=
  with_db p
    (goleveldb.Put (db p) (Key e) (Bytes (EntryToValue now e))
       (goleveldb.mkWriteOptions (syncWrites p))).

(** The loop of [Batch] that fills the engine batch. *)
Definition add_entry (now : Z) (batch : goleveldb.Batch) (entry : Entry)
    : goleveldb.Batch :=
  match goukv.Value entry with
  | None => goleveldb.Batch_Delete batch (Key entry)
  | Some _ =>
      goleveldb.Batch_Put batch (Key entry) (Bytes (EntryToValue now entry))
  end.

Definition Batch (now : Z) (p : Provider) (entries : list Entry)
    : Provider * option error :=
  let batch := foldl (add_entry now) [] entries in
  with_db p
    (goleveldb.Write (db p) batch (goleveldb.mkWriteOptions (syncWrites p))).

Definition Get (now : Z) (p : Provider) (k : bytes)
    : option bytes * option error :=
  let '(b, err) := goleveldb.Get (db p) k in
  if bool_decide (err = Some LeveldbErrNotFound)
  then (None, Some ErrKeyNotFound)
  else
    let val := BytesToValue (default EmptyString b) in
    if IsExpired now val then (None, Some ErrKeyNotFound)
    else (Some (Value val), err).

Definition TTL (p : Provider) (k : bytes) : option Z * option error :=
  let '(b, err) := goleveldb.Get (db p) k in
  if bool_decide (err = Some LeveldbErrNotFound)
  then (None, Some ErrKeyNotFound)
  else
    match err with
    | Some e => (None, Some e)
    | None =>
        let val := BytesToValue (default EmptyString b) in
        (Expires val, None)
    end.

Definition Delete (p : Provider) (k : bytes) : Provider * option error :=
  with_db p
    (goleveldb.Delete (db p) k (goleveldb.mkWriteOptions (syncWrites p))).

Section Scan.
Context {S : Type}.

(** The [for ok := seek(); ok; ok = next()] loop: [ok] is the result of
    the last [seek] or [next], [it] the iterator after it.  Each Go
    [continue] is the recursive call on the result of [next]. *)
Fixpoint scan_loop (fuel : nat) (now : Z) (opts : ScanOpts S)
    (scanner : S → bytes → bytes → S * option error)
    (next : goleveldb.Iterator → bool * goleveldb.Iterator)
    (ok : bool) (it : goleveldb.Iterator) (st : S) : outcome S :=
  match fuel with
  | O => OutOfFuel st
  | Datatypes.S fuel =>
      let continue st :=
        let '(ok, it) := next it in
        scan_loop fuel now opts scanner next ok it st in
      if negb ok then Returned st None
      else
        match goleveldb.Error it with
        | Some err => Returned st (Some err)
        | None =>
            if negb (goleveldb.Valid it) then Returned st None
            else
              match goleveldb.Key it with
              | None => Returned st None
              | Some _k =>
                  let _v := goleveldb.Value it in
                  if bool_decide (is_Some (Offset opts))
                     && negb (IncludeOffset opts)
                     && gobytes.Equal _k (default EmptyString (Offset opts))
                  then continue st
                  else
                    let newK := _k in
                    let newV := default EmptyString _v in
                    let decodedValue := BytesToValue newV in
                    if IsExpired now decodedValue then continue st
                    else
                      match scanner st newK (Value decodedValue) with
                      | (st, None) => continue st
                      | (st, Some err) =>
                          if bool_decide (err = ErrScanDone)
                          then Returned st None
                          else Returned st (Some err)
                      end
              end
        end
  end.

(** [seek] is a variable of function type that the source assigns in two of
    the three cases; where it is left nil, calling it panics. *)
Definition Scan (now : Z) (p : Provider) (opts : ScanOpts S) (st : S)
    : outcome S :=
  match Scanner opts with
  | None => Returned st (Some ErrNoScanner)
  | Some scanner =>
      let iter :=
        match Prefix opts with
        | Some prefix =>
            goleveldb.NewIterator (db p)
              (Some (goleveldb.BytesPrefix prefix))
        | None => goleveldb.NewIterator (db p) None
        end in
      let next :=
        if ReverseScan opts then goleveldb.Prev else goleveldb.Next in
      let seek : option (goleveldb.Iterator → bool * goleveldb.Iterator) :=
        match Offset opts with
        | Some offset => Some (λ iter, goleveldb.Seek iter offset)
        | None =>
            if ReverseScan opts then Some goleveldb.Last else None
        end in
      match seek with
      | None => Panicked st
      | Some seek =>
          let '(ok, iter) := seek iter in
          scan_loop (Datatypes.S (length (goleveldb.all iter)))
            now opts scanner next ok iter st
      end
  end.
End Scan.
End Operations.

End leveldb.

(** ** A concrete value codec

    Modelled from the spec: a self-delimiting payload layout that meets the
    codec contract.  A payload without expiry is the byte [n] followed by the
    raw value; a payload with expiry is the byte [e], the expiry written sign
    first and then bit by bit up to a terminator, and the raw value. *)

Module wire.
Import leveldb.

Fixpoint put_positive (p : positive) (rest : string) : string :=
  match p with
  | xH => String "."%char rest
  | xO p => String "0"%char (put_positive p rest)
  | xI p => String "1"%char (put_positive p rest)
  end.

Definition put_Z (z : Z) (rest : string) : string :=
  match z with
  | Z0 => String "z"%char rest
  | Zpos p => String "+"%char (put_positive p rest)
  | Zneg p => String "-"%char (put_positive p rest)
  end.

Fixpoint get_positive (s : string) : option (positive * string) :=
  match s with
  | EmptyString => None
  | String c rest =>
      if Ascii.eqb c "."%char then Some (xH, rest)
      else if Ascii.eqb c "0"%char
      then '(p, r) ← get_positive rest; Some (xO p, r)
      else if Ascii.eqb c "1"%char
      then '(p, r) ← get_positive rest; Some (xI p, r)
      else None
  end.

Definition get_Z (s : string) : option (Z * string) :=
  match s with
  | EmptyString => None
  | String c rest =>
      if Ascii.eqb c "z"%char then Some (Z0, rest)
      else if Ascii.eqb c "+"%char
      then '(p, r) ← get_positive rest; Some (Zpos p, r)
      else if Ascii.eqb c "-"%char
      then '(p, r) ← get_positive rest; Some (Zneg p, r)
      else None
  end.

Definition encode (v : StoredValue) : string :=
  match Expires v with
  | None => String "n"%char (Value v)
  | Some t => String "e"%char (put_Z t (Value v))
  end.

(** Bytes that no payload encodes decode to the zero value. *)
Definition decode (s : string) : StoredValue :=
  match s with
  | EmptyString => mkValue EmptyString None
  | String c rest =>
      if Ascii.eqb c "n"%char then mkValue rest None
      else if Ascii.eqb c "e"%char
      then match get_Z rest with
           | Some (t, raw) => mkValue raw (Some t)
           | None => mkValue EmptyString None
           end
      else mkValue EmptyString None
  end.

#[export] Instance codec : Codec.
Proof.
  refine {| Bytes := encode; BytesToValue := decode; leveldb.decode_encode := _ |}.
  assert (∀ p rest, get_positive (put_positive p rest) = Some (p, rest)) as Hp.
  { induction p as [p IH|p IH|]; intros rest; simpl; [by rewrite IH..|done]. }
  intros [raw [t|]]; unfold encode; simpl; [|done].
  destruct t; simpl; [done|by rewrite Hp..].
Defined.

End wire.

(** ** The badger engine, as the badgerdb provider uses it

    The engine keeps an expiry next to every value and hides expired items
    from reads and iterators by itself.  A write transaction and a write batch
    collect writes, each of which the engine may refuse, and commit them whole
    or not at all (batches larger than one engine transaction are outside the
    model). *)

Module badger.
Import goukv.

(** [badger.Options], the fields the provider touches. *)
Record Options : Type := mkOptions {
  Dir : string;
  SyncWrites : bool;
  Logger : bool;
  KeepL0InMemory : bool;
  Compression : Z
}.

(** [badger.DefaultOptions] is the engine's table of defaults: a parameter. *)
Class Defaults : Type := { DefaultOptions : string → Options }.

(** The [With...] methods of [Options] have value receivers: each returns an
    updated copy and leaves the receiver as it was. *)
Definition WithSyncWrites (opt : Options) (val : bool) : Options :=
  mkOptions (Dir opt) val (Logger opt) (KeepL0InMemory opt) (Compression opt).

Definition WithLogger (opt : Options) (val : bool) : Options :=
  mkOptions (Dir opt) (SyncWrites opt) val (KeepL0InMemory opt) (Compression opt).

Definition WithKeepL0InMemory (opt : Options) (val : bool) : Options :=
  mkOptions (Dir opt) (SyncWrites opt) (Logger opt) val (Compression opt).

Definition WithCompression (opt : Options) (val : Z) : Options :=
  mkOptions (Dir opt) (SyncWrites opt) (Logger opt) (KeepL0InMemory opt) val.

(** [options.Snappy]. *)
Definition Snappy : Z := 1%Z.

(** A stored item: its value and its expiry in Unix seconds, zero for none. *)
Record Item : Type := mkItem {
  Key : bytes;
  Value : bytes;
  ExpiresAt : Z
}.

(** A write: [badger.Entry] for a set, the key alone for a delete. *)
Inductive write : Type :=
| WSet (e : Item)
| WDelete (k : bytes).

Record Storage : Type := mkStorage {
  table : gmap string (string * Z);
  get_fault : option error;
  value_fault : option error;
  refuse : write → option error;
  commit_fault : option error
}.

Record DB : Type := mkDB {
  opt : Options;
  storage : Storage
}.

Definition Disk := gmap string os.FileMode → string → result Storage.

(** [badger.Open(opts)]. *)
Definition Open (disk : Disk) (fs : os.FS) (opts : Options) : result DB :=
  match disk (os.dirs fs) (Dir opts) with
  | Err e => Err e
  | Ok s => Ok (mkDB opts s)
  end.

(** [badger.NewEntry(key, value)], and [WithTTL(dur)], whose receiver is a
    pointer: it sets the expiry of the entry it is called on. *)
Definition NewEntry (key value : bytes) : Item := mkItem key value 0.

Definition WithTTL (now : Z) (e : Item) (dur : Z) : Item :=
  mkItem (Key e) (Value e) (now + dur).

Definition expired (now : Z) (expiresAt : Z) : bool :=
  negb (expiresAt =? 0)%Z && (expiresAt <=? now)%Z.

Definition apply_write (t : gmap string (string * Z)) (w : write)
    : gmap string (string * Z) :=
  match w with
  | WSet e => <[Key e := (Value e, ExpiresAt e)]> t
  | WDelete k => delete k t
  end.

(** Committing a set of pending writes: all of them, in order, or none. *)
Definition commit (d : DB) (pending : list write) : DB * option error :=
  match commit_fault (storage d) with
  | Some e => (d, Some e)
  | None =>
      let s := storage d in
      (mkDB (opt d)
            (mkStorage (foldl apply_write (table s) pending)
               (get_fault s) (value_fault s) (refuse s) (commit_fault s)),
       None)
  end.

(** [txn.Get(key)]: the item, unless the key is absent or its item expired. *)
Definition Txn_Get (now : Z) (d : DB) (k : bytes) : option Item * option error :=
  match get_fault (storage d) with
  | Some e => (None, Some e)
  | None =>
      match table (storage d) !! k with
      | Some (v, x) =>
          if expired now x then (None, Some BadgerErrKeyNotFound)
          else (Some (mkItem k v x), None)
      | None => (None, Some BadgerErrKeyNotFound)
      end
  end.

(** [item.ValueCopy(nil)]. *)
Definition ValueCopy (d : DB) (item : Item) : option bytes * option error :=
  match value_fault (storage d) with
  | Some e => (None, Some e)
  | None => (Some (Value item), None)
  end.

(** [db.Update(fn)] for a function that issues one write: the write is
    committed unless the engine refuses it. *)
Definition Update1 (d : DB) (w : write) : DB * option error :=
  match refuse (storage d) w with
  | Some e => (d, Some e)
  | None => commit d [w]
  end.

(** *** Write batches *)

Record WriteBatch : Type := mkWriteBatch { pending : list write }.

Definition NewWriteBatch : WriteBatch := mkWriteBatch [].

(** [batch.SetEntry], [batch.Set], [batch.Delete]: the write joins the batch
    unless the engine refuses it. *)
Definition Batch_add (d : DB) (b : WriteBatch) (w : write)
    : WriteBatch * option error :=
  match refuse (storage d) w with
  | Some e => (b, Some e)
  | None => (mkWriteBatch (pending b ++ [w]), None)
  end.

Definition Batch_SetEntry (d : DB) (b : WriteBatch) (e : Item) :=
  Batch_add d b (WSet e).

Definition Batch_Set (d : DB) (b : WriteBatch) (k v : bytes) :=
  Batch_add d b (WSet (NewEntry k v)).

Definition Batch_Delete (d : DB) (b : WriteBatch) (k : bytes) :=
  Batch_add d b (WDelete k).

(** [batch.Cancel()] drops what is pending. *)
Definition Cancel (b : WriteBatch) : WriteBatch := mkWriteBatch [].

(** [batch.Flush()]. *)
Definition Flush (d : DB) (b : WriteBatch) : DB * option error :=
  commit d (pending b).

(** *** Iterators *)

Record IteratorOptions : Type := mkIteratorOptions {
  Reverse : bool;
  Prefix : option bytes
}.

Definition DefaultIteratorOptions : IteratorOptions :=
  mkIteratorOptions false None.

Definition item_le (x y : Item) : Prop := gobytes.le (Key x) (Key y).

#[global] Instance item_le_dec : RelDecision item_le.
Proof. intros x y. unfold item_le, gobytes.le. apply _. Defined.

(** The items a read transaction sees, in key order: those not expired. *)
Definition live (now : Z) (t : gmap string (string * Z)) : list Item :=
  List.filter (λ i, negb (expired now (ExpiresAt i)))
    (merge_sort item_le
       ((λ kv : string * (string * Z), mkItem kv.1 kv.2.1 kv.2.2)
          <$> map_to_list t)).

Definition has_prefix (prefix : option bytes) (i : Item) : bool :=
  match prefix with
  | None => true
  | Some p => gobytes.HasPrefix (Key i) p
  end.

(** An iterator: the items of its prefix in iteration order, and the part of
    them from the cursor on. *)
Record Iterator : Type := mkIterator {
  opts : IteratorOptions;
  order : list Item;
  rest : list Item
}.

(** [txn.NewIterator(iterOpts)]. *)
Definition NewIterator (now : Z) (d : DB) (o : IteratorOptions) : Iterator :=
  let items := List.filter (has_prefix (Prefix o)) (live now (table (storage d))) in
  let order := if Reverse o then List.rev items else items in
  mkIterator o order order.

(** Whether [key] lies past the item in the direction of iteration. *)
Definition before (reverse : bool) (key : bytes) (i : Item) : bool :=
  if reverse then String.ltb key (Key i) else String.ltb (Key i) key.

Fixpoint skip_while (f : Item → bool) (l : list Item) : list Item :=
  match l with
  | [] => []
  | x :: l' => if f x then skip_while f l' else l
  end.

(** [iter.Seek(key)]: to [key] if present, else to the next key in the
    direction of iteration. *)
Definition Seek (it : Iterator) (key : bytes) : Iterator :=
  mkIterator (opts it) (order it)
    (skip_while (before (Reverse (opts it)) key) (order it)).

(** [iter.Rewind()]: to the first item in the direction of iteration. *)
Definition Rewind (it : Iterator) : Iterator :=
  mkIterator (opts it) (order it) (order it).

End badger.

(** ** Package badgerdb: the provider with native expiry *)

Module badgerdb.
Import goukv.

Record Provider : Type := mkProvider { db : badger.DB }.

Section Open.
Context `{os.Platform} `{badger.Defaults}.

(** The same preparation of the storage location as in package [leveldb].
    The results of the [With...] calls are not assigned, as in the source.
    The goroutine that runs the value-log collection every five minutes is
    concurrent with every call and not part of the model. *)
Definition Open (disk : badger.Disk) (fs : os.FS)
    (opts : gmap string any) : result Provider * os.FS :=
  let '(path, ok) := assert_string (opts !! "path"%string) in
  if negb ok then (Err (ErrorsNew "must specify path"), fs)
  else
    let dir := os.filepath_Dir path in
    let '(fs, failed) :=
      if os.IsNotExist (os.Stat fs dir)
      then os.MkdirAll fs dir os.ModePerm
      else (fs, None) in
    match failed with
    | Some err => (Err err, fs)
    | None =>
        let '(syncWrites, ok) := assert_bool (opts !! "sync_writes"%string) in
        let syncWrites := if negb ok then false else syncWrites in
        let badgerOpts := badger.DefaultOptions path in
        let _ := badger.WithSyncWrites badgerOpts syncWrites in
        let _ := badger.WithLogger badgerOpts false in
        let _ := badger.WithKeepL0InMemory badgerOpts true in
        let _ := badger.WithCompression badgerOpts badger.Snappy in
        match badger.Open disk fs badgerOpts with
        | Err err => (Err err, fs)
        | Ok db => (Ok (mkProvider db), fs)
        end
    end.
End Open.

Definition with_db (r : badger.DB * option error) : Provider * option error :=
  (mkProvider r.1, r.2).

Definition Put (now : Z) (p : Provider) (entry : Entry)
    : Provider * option error :=
  with_db
    (badger.Update1 (db p)
       (if (0 <? TTL entry)%Z
        then
          let badgerEntry :=
            badger.NewEntry (Key entry) (default EmptyString (Value entry)) in
          let badgerEntry := badger.WithTTL now badgerEntry (TTL entry) in
          badger.WSet badgerEntry
        else
          badger.WSet
            (badger.NewEntry (Key entry) (default EmptyString (Value entry))))).

(** The [for _, entry := range entries] loop of [Batch]: the batch after the
    loop and the error that ended it, if any. *)
Fixpoint batch_loop (now : Z) (d : badger.DB) (batch : badger.WriteBatch)
    (entries : list Entry) : badger.WriteBatch * option error :=
  match entries with
  | [] => (batch, None)
  | entry :: entries =>
      let '(batch, err) :=
        match Value entry with
        | None => badger.Batch_Delete d batch (Key entry)
        | Some value =>
            if (0 <? TTL entry)%Z
            then
              let badgerEntry := badger.NewEntry (Key entry) value in
              let badgerEntry := badger.WithTTL now badgerEntry (TTL entry) in
              badger.Batch_SetEntry d batch badgerEntry
            else badger.Batch_Set d batch (Key entry) value
        end in
      match err with
      | Some err => (badger.Cancel batch, Some err)
      | None => batch_loop now d batch entries
      end
  end.

(** The deferred [batch.Cancel()] runs last on both paths; it acts on the
    batch only. *)
Definition Batch (now : Z) (p : Provider) (entries : list Entry)
    : Provider * option error :=
  let batch := badger.NewWriteBatch in
  let '(batch, err) := batch_loop now (db p) batch entries in
  match err with
  | Some err => (p, Some err)
  | None => with_db (badger.Flush (db p) batch)
  end.

Definition Get (now : Z) (p : Provider) (k : bytes)
    : option bytes * option error :=
  let '(item, err) := badger.Txn_Get now (db p) k in
  if bool_decide (err = Some BadgerErrKeyNotFound)
  then (None, Some ErrKeyNotFound)
  else
    match err, item with
    | None, Some item =>
        let '(d, err) := badger.ValueCopy (db p) item in
        match err with
        | Some err => (None, Some err)
        | None => (d, None)
        end
    | err, _ => (None, err)
    end.

Definition TTL (now : Z) (p : Provider) (k : bytes)
    : option Z * option error :=
  let '(item, err) := badger.Txn_Get now (db p) k in
  if bool_decide (err = Some BadgerErrKeyNotFound)
  then (None, Some ErrKeyNotFound)
  else
    match err, item with
    | None, Some item =>
        let expiresAt := badger.ExpiresAt item in
        if (0 <? expiresAt)%Z then (Some expiresAt, None) else (None, None)
    | err, _ => (None, err)
    end.

Definition Delete (p : Provider) (k : bytes) : Provider * option error :=
  with_db (badger.Update1 (db p) (badger.WDelete k)).

Section Scan.
Context {S : Type}.

(** The [for ; iter.Valid(); iter.Next()] loop over the items from the cursor
    on: the iterator is valid while an item is left, [iter.Next()] drops the
    first.  [checked] is the local variable of that name. *)
Fixpoint scan_loop (d : badger.DB) (opts : ScanOpts S)
    (scanner : S → bytes → bytes → S * option error)
    (iter : list badger.Item) (checked : bool) (st : S) : outcome S :=
  match iter with
  | [] => Returned st None
  | item :: iter =>
      let key := badger.Key item in
      if negb checked
         && bool_decide (is_Some (Offset opts))
         && negb (IncludeOffset opts)
         && bool_decide
              (String.compare key (default EmptyString (Offset opts)) = Eq)
      then scan_loop d opts scanner iter true st
      else
        let checked := true in
        let '(val, err) := badger.ValueCopy d item in
        match err with
        | Some err => Returned st (Some err)
        | None =>
            match scanner st key (default EmptyString val) with
            | (st, None) => scan_loop d opts scanner iter checked st
            | (st, Some err) =>
                if bool_decide (err = ErrScanDone)
                then Returned st None
                else Returned st (Some err)
            end
        end
  end.

Definition Scan (now : Z) (p : Provider) (opts : ScanOpts S) (st : S)
    : outcome S :=
  match Scanner opts with
  | None => Returned st (Some ErrNoScanner)
  | Some scanner =>
      let iterOpts := badger.DefaultIteratorOptions in
      let iterOpts :=
        badger.mkIteratorOptions (ReverseScan opts) (badger.Prefix iterOpts) in
      let iterOpts :=
        if (0 <? gobytes.len (Prefix opts))%nat
        then badger.mkIteratorOptions (badger.Reverse iterOpts) (Prefix opts)
        else iterOpts in
      let iter := badger.NewIterator now (db p) iterOpts in
      let iter :=
        match Offset opts with
        | Some offset => badger.Seek iter offset
        | None => badger.Rewind iter
        end in
      scan_loop (db p) opts scanner (badger.rest iter) false st
  end.
End Scan.

End badgerdb.

(** ** Stores and callbacks used in the examples *)

Module fixtures.
Import goukv.

(** A leveldb provider over the given payload table, with an engine that
    reports no error. *)
Definition leveldb_over (t : gmap string string) : leveldb.Provider :=
  leveldb.mkProvider
    (goleveldb.mkDB (goleveldb.mkOptions 10 false 9 false)
       (goleveldb.mkStorage t None None None) [])
    false.

(** A badgerdb provider over the given table, likewise. *)
Definition badger_over (t : gmap string (string * Z)) : badgerdb.Provider :=
  badgerdb.mkProvider
    (badger.mkDB (badger.mkOptions "/data/kv" true true false 0)
       (badger.mkStorage t None None (λ _, None) None)).

(** The keys [a], [b], [c] with values [1], [2], [3] and no expiry. *)
Definition abc_leveldb : leveldb.Provider :=
  leveldb_over
    (list_to_map
       [("a", wire.encode (leveldb.mkValue "1" None));
        ("b", wire.encode (leveldb.mkValue "2" None));
        ("c", wire.encode (leveldb.mkValue "3" None))]%string).

Definition abc_badger : badgerdb.Provider :=
  badger_over
    (list_to_map [("a", ("1", 0)); ("b", ("2", 0)); ("c", ("3", 0))]%string%Z).

(** The defaults of the engine's second major version. *)
Definition badger_defaults : badger.Defaults :=
  {| badger.DefaultOptions := λ path, badger.mkOptions path true true false 0 |}.

(** A disk on which every path opens to the given storage. *)
Definition leveldb_disk (s : goleveldb.Storage) : goleveldb.Disk :=
  λ _ _, Ok s.

Definition badger_disk (s : badger.Storage) : badger.Disk :=
  λ _ _, Ok s.

(** A file system with the given directories and no failures. *)
Definition fs_with (ds : list string) : os.FS :=
  os.mkFS (list_to_map ((λ d, (d, 493%Z)) <$> ds)) None None.

(** The keys [a], [b], [c] in a leveldb store, the payload of [b] having
    expired at time 5. *)
Definition b_expired_leveldb : leveldb.Provider :=
  leveldb_over
    (list_to_map
       [("a", wire.encode (leveldb.mkValue "1" None));
        ("b", wire.encode (leveldb.mkValue "2" (Some 5%Z)));
        ("c", wire.encode (leveldb.mkValue "3" None))]%string).

(** One key [k] whose value expires at time 5, in each engine. *)
Definition k_expiring_leveldb : leveldb.Provider :=
  leveldb_over
    (list_to_map [("k", wire.encode (leveldb.mkValue "v" (Some 5%Z)))]%string).

Definition k_expiring_badger : badgerdb.Provider :=
  badger_over (list_to_map [("k", ("v", 5))]%string%Z).

(** An empty leveldb storage that reports no error, and a badger storage
    that refuses the empty key. *)
Definition empty_leveldb_storage : goleveldb.Storage :=
  goleveldb.mkStorage ∅ None None None.

Definition refuse_empty_key (w : badger.write) : option error :=
  match w with
  | badger.WSet e =>
      if String.eqb (badger.Key e) EmptyString
      then Some (ErrorsNew "Key cannot be empty") else None
  | badger.WDelete k =>
      if String.eqb k EmptyString
      then Some (ErrorsNew "Key cannot be empty") else None
  end.

Definition strict_badger (t : gmap string (string * Z)) : badgerdb.Provider :=
  badgerdb.mkProvider
    (badger.mkDB (badger.mkOptions "/data/kv" true true false 0)
       (badger.mkStorage t None None refuse_empty_key None)).

(** Option maps that name a path and set [sync_writes]. *)
Definition open_opts (sync : any) : gmap string any :=
  <["sync_writes"%string := sync]> {["path"%string := AString "/data/kv/db"]}.

(** A callback that records the keys it is given. *)
Definition collect (log : list string) (k v : bytes)
    : list string * option error :=
  (log ++ [k], None).



Definition scan_opts (prefix offset : option bytes) (reverse include : bool)
    (f : list string → bytes → bytes → list string * option error)
    : ScanOpts (list string) :=
  mkScanOpts prefix offset reverse include (Some f).

End fixtures.

(** ** The contract, in the terms of the spec

    The definitions below are not code of the repository: they state what the
    operations are expected to compute, for comparison with the code. *)

Module contract.
Import goukv.

Section Open.
Context `{os.Platform} `{badger.Defaults}.

(** The value [Open] gives to its local [syncWrites]. *)
Definition sync_writes_of (opts : gmap string any) : bool :=
  let '(syncWrites, ok) := assert_bool (opts !! "sync_writes"%string) in
  if negb ok then false else syncWrites.

(** What [Open] does once the storage location is prepared, in each
    package: it opens the engine at [path] and wraps the handle. *)
Definition leveldb_opened (disk : goleveldb.Disk) (fs : os.FS)
    (path : string) (sw : bool) : result leveldb.Provider :=
  match goleveldb.OpenFile disk fs path (goleveldb.mkOptions 10 false 9 sw) with
  | Err e => Err e
  | Ok d => Ok (leveldb.mkProvider d sw)
  end.

Definition badger_opened (disk : badger.Disk) (fs : os.FS) (path : string)
    : result badgerdb.Provider :=
  match badger.Open disk fs (badger.DefaultOptions path) with
  | Err e => Err e
  | Ok d => Ok (badgerdb.mkProvider d)
  end.

End Open.

Section Batch.
Context `{leveldb.Codec}.

(** What one entry of a batch does to the table of each engine: an entry
    without value deletes its key, an entry with a value (of any length)
    stores it. *)
Definition leveldb_apply (now : Z) (t : gmap string string) (e : Entry)
    : gmap string string :=
  match Value e with
  | None => delete (Key e) t
  | Some _ => <[Key e := leveldb.Bytes (leveldb.EntryToValue now e)]> t
  end.

Definition badger_apply (now : Z) (t : gmap string (string * Z)) (e : Entry)
    : gmap string (string * Z) :=
  match Value e with
  | None => delete (Key e) t
  | Some v => <[Key e := (v, if (0 <? TTL e)%Z then (now + TTL e)%Z else 0%Z)]> t
  end.

End Batch.

Section Scan.
Context {S : Type}.

(** The callback applied to the records in order, up to and including its
    first call that returns an error: the state after the last call and that
    error. *)
Fixpoint feed (f : S → bytes → bytes → S * option error)
    (recs : list (bytes * bytes)) (st : S) : S * option error :=
  match recs with
  | [] => (st, None)
  | (k, v) :: recs =>
      match f st k v with
      | (st, None) => feed f recs st
      | (st, Some e) => (st, Some e)
      end
  end.

(** How a scan ends after the callback's calls: the scan-done sentinel is a
    success, any other error is the scan's error. *)
Definition finish (x : S * option error) : outcome S :=
  Returned x.1
    match x.2 with
    | Some e => if bool_decide (e = ErrScanDone) then None else Some e
    | None => None
    end.

End Scan.

(** Entries in strictly increasing key order. *)
Definition key_lt (x y : string * string) : Prop := gobytes.lt x.1 y.1.

(** The boundary rule, applied to the first candidate only: a first candidate
    whose key is the offset is dropped unless the offset is included. *)
Definition boundary_once (offset : bytes) (include : bool)
    (cands : list (bytes * bytes)) : list (bytes * bytes) :=
  match cands with
  | x :: rest =>
      if gobytes.Equal x.1 offset && negb include then rest else cands
  | [] => []
  end.

(** The boundary test applied to every candidate. *)
Definition boundary_every (offset : option bytes) (include : bool)
    (cands : list (bytes * bytes)) : list (bytes * bytes) :=
  List.filter
    (λ x, negb (bool_decide (is_Some offset) && negb include
                && gobytes.Equal x.1 (default EmptyString offset)))
    cands.

Section Leveldb.
Context `{leveldb.Codec}.

(** The candidates whose payload has not expired, decoded. *)
Definition unexpired (now : Z) (cands : list (bytes * bytes))
    : list (bytes * bytes) :=
  omap (λ x : bytes * bytes,
          let v := leveldb.BytesToValue x.2 in
          if leveldb.IsExpired now v then None else Some (x.1, leveldb.Value v))
       cands.

(** The entries an iterator yields from its cursor on, when moved by [Prev]
    ([reverse]) or by [Next]. *)
Definition upcoming (reverse : bool) (it : goleveldb.Iterator)
    : list goleveldb.entry :=
  match goleveldb.here it with
  | None => []
  | Some x => x :: (if reverse then goleveldb.behind it else goleveldb.ahead it)
  end.

(** The candidate records of a leveldb scan, in the order of the visit: what
    the iterator yields after the scan's [seek]. *)
Definition leveldb_candidates (p : leveldb.Provider)
    (prefix offset : option bytes) (reverse : bool) : list (bytes * bytes) :=
  let iter :=
    goleveldb.NewIterator (leveldb.db p) (goleveldb.BytesPrefix <$> prefix) in
  match offset with
  | Some offset => upcoming reverse (goleveldb.Seek iter offset).2
  | None => if reverse then upcoming true (goleveldb.Last iter).2 else []
  end.

End Leveldb.

(** The candidate records of a badgerdb scan: the items from the iterator's
    cursor on, after [Seek] or [Rewind]. *)
Definition badger_candidates (now : Z) (p : badgerdb.Provider)
    (prefix offset : option bytes) (reverse : bool) : list (bytes * bytes) :=
  let iter :=
    badger.NewIterator now (badgerdb.db p)
      (badger.mkIteratorOptions reverse
         (if (0 <? gobytes.len prefix)%nat then prefix else None)) in
  (λ i, (badger.Key i, badger.Value i))
    <$> badger.rest
          match offset with
          | Some offset => badger.Seek iter offset
          | None => badger.Rewind iter
          end.

End contract.

(** ** Observing a scan

    A callback that keeps every record it is handed, and the options of a
    scan that uses it: what such a scan returns is the sequence of records
    the scan emits. *)

Module observe.
Import goukv.

Definition keep (log : list (bytes * bytes)) (k v : bytes)
    : list (bytes * bytes) * option error :=
  (log ++ [(k, v)], None).

Definition scan_all (prefix offset : option bytes) (reverse include : bool)
    : ScanOpts (list (bytes * bytes)) :=
  mkScanOpts prefix offset reverse include (Some keep).

(** Whether a key lies under a prefix that may be absent. *)
Definition under (prefix : option bytes) (k : bytes) : bool :=
  match prefix with
  | None => true
  | Some pre => gobytes.HasPrefix k pre
  end.



End observe.

(** ** Engines that fail, for the examples *)

Module broken.
Import goukv.

(** A leveldb provider over the keys [a], [b], [c] whose engine fails every
    read and reports every iterator as in error. *)
Definition unreadable_leveldb : leveldb.Provider :=
  leveldb.mkProvider
    (goleveldb.mkDB (goleveldb.mkOptions 10 false 9 false)
       (goleveldb.mkStorage
          (goleveldb.table
             (goleveldb.storage (leveldb.db fixtures.abc_leveldb)))
          (Some (ErrorsNew "leveldb: corrupted")) None
          (Some (ErrorsNew "leveldb: corrupted")))
       [])
    false.

(** A badgerdb provider over the keys [a], [b], [c] whose engine fails every
    read and every copy of a value. *)
Definition unreadable_badger : badgerdb.Provider :=
  badgerdb.mkProvider
    (badger.mkDB (badger.mkOptions "/data/kv" true true false 0)
       (badger.mkStorage
          (badger.table (badger.storage (badgerdb.db fixtures.abc_badger)))
          (Some (ErrorsNew "badger: closed")) (Some (ErrorsNew "badger: closed"))
          (λ _, None) None)).

End broken.

(** * Properties *)

Import goukv contract.

(** ** The path model *)

Example unix_Dir_nested : os.unix_Dir "/var/lib/kv/db" = "/var/lib/kv"%string.
Proof. reflexivity. Qed.

Example unix_parents :
  @os.parents os.unix 9 "/var/lib"%string = ["/var"; "/"]%string.
Proof. reflexivity. Qed.

(** ** Opening a provider *)

Section OpenProperties.
Context `{os.Platform} `{badger.Defaults}.

Lemma mkdir_if_missing_keeps perm l ds d m :
  ds !! d = Some m →
  foldl (os.mkdir_if_missing perm) ds l !! d = Some m.
Proof.
  revert ds. induction l as [|x l IH]; intros ds Hd; simpl; [done|].
  apply IH. unfold os.mkdir_if_missing.
  destruct (ds !! x) eqn:Hx; [done|].
  rewrite lookup_insert_ne; [done|]. intros ->. congruence.
Qed.

Lemma mkdir_if_missing_adds perm l ds d :
  d ∈ l → is_Some (foldl (os.mkdir_if_missing perm) ds l !! d).
Proof.
  revert ds. induction l as [|x l IH]; intros ds Hd; simpl.
  - by apply elem_of_nil in Hd.
  - apply elem_of_cons in Hd as [->|Hd]; [|by apply IH].
    unfold os.mkdir_if_missing at 2.
    destruct (ds !! x) eqn:Hx.
    + exists f. by apply mkdir_if_missing_keeps.
    + exists perm. apply mkdir_if_missing_keeps. apply lookup_insert_eq.
Qed.

Lemma MkdirAll_creates fs path perm :
  os.mkdir_fault fs = None →
  os.dirs fs !! path = None →
  let fs' := (os.MkdirAll fs path perm).1 in
  (os.MkdirAll fs path perm).2 = None
  ∧ os.dirs fs' !! path = Some perm
  ∧ ∀ d, d ∈ os.parents (String.length path) path → is_Some (os.dirs fs' !! d).
Proof.
  intros Hf Hp. unfold os.MkdirAll. rewrite Hf. simpl.
  split; [done|]. split.
  - apply mkdir_if_missing_keeps. unfold os.mkdir_if_missing.
    rewrite Hp. apply lookup_insert_eq.
  - intros d Hd. by apply mkdir_if_missing_adds.
Qed.

(** C10.  When the parent directory of the configured path does not exist
    (and the system does not refuse to create it), [Open] creates it with
    [MkdirAll] and mode [0o777], so that it and all its parents exist, and
    only then opens the engine, in the file system that has the directory;
    the result of [Open] is the result of opening the engine.  This holds in
    both packages. *)
Theorem Open_creates_missing_parent_directory
    (ldisk : goleveldb.Disk) (bdisk : badger.Disk) (fs : os.FS)
    (opts : gmap string any) (path : string) :
  opts !! "path"%string = Some (AString path) →
  os.stat_fault fs = None →
  os.dirs fs !! os.filepath_Dir path = None →
  os.mkdir_fault fs = None →
  let dir := os.filepath_Dir path in
  let fs' := (os.MkdirAll fs dir os.ModePerm).1 in
  os.dirs fs' !! dir = Some os.ModePerm
  ∧ (∀ d, d ∈ os.parents (String.length dir) dir → is_Some (os.dirs fs' !! d))
  ∧ leveldb.Open ldisk fs opts
    = (leveldb_opened ldisk fs' path (sync_writes_of opts), fs')
  ∧ badgerdb.Open bdisk fs opts = (badger_opened bdisk fs' path, fs').
Proof.
  intros Hpath Hstat Hdir Hmk dir fs'. subst dir fs'.
  destruct (MkdirAll_creates fs _ os.ModePerm Hmk Hdir) as (Hnil & Hnew & Hpar).
  split; [done|]. split; [done|].
  unfold leveldb.Open, badgerdb.Open, leveldb_opened, badger_opened,
    sync_writes_of.
  rewrite Hpath. simpl.
  unfold os.Stat. rewrite Hstat, Hdir. simpl.
  destruct (os.MkdirAll fs _ os.ModePerm) as [fs1 failed] eqn:Hm.
  simpl in Hnil. subst failed. simpl.
  split.
  - destruct (opts !! "sync_writes"%string) as [[]|]; simpl;
      by destruct (goleveldb.OpenFile _ _ _ _).
  - destruct (opts !! "sync_writes"%string) as [[]|]; simpl;
      by destruct (badger.Open _ _ _).
Qed.

(** X4.  When the system refuses to create the directory, [Open] returns that
    error and does not open the engine. *)
Lemma Open_mkdir_refused (ldisk : goleveldb.Disk) (bdisk : badger.Disk)
    (fs : os.FS) (opts : gmap string any) (path : string) (e : error) :
  opts !! "path"%string = Some (AString path) →
  os.stat_fault fs = None →
  os.dirs fs !! os.filepath_Dir path = None →
  os.mkdir_fault fs = Some e →
  leveldb.Open ldisk fs opts = (Err e, fs)
  ∧ badgerdb.Open bdisk fs opts = (Err e, fs).
Proof.
  intros Hpath Hstat Hdir Hmk.
  unfold leveldb.Open, badgerdb.Open. rewrite Hpath. simpl.
  unfold os.Stat, os.MkdirAll. by rewrite Hstat, Hdir, Hmk.
Qed.

(** C9.  A [sync_writes] option that is present but not a boolean does not
    make [Open] fail: in both packages [Open] does exactly what it does when
    the option is [false], and what it does when the option is missing. *)
Theorem Open_malformed_sync_writes_is_false
    (ldisk : goleveldb.Disk) (bdisk : badger.Disk) (fs : os.FS)
    (opts : gmap string any) (v : any) :
  (∀ b, v ≠ ABool b) →
  leveldb.Open ldisk fs (<["sync_writes"%string := v]> opts)
    = leveldb.Open ldisk fs (<["sync_writes"%string := ABool false]> opts)
  ∧ leveldb.Open ldisk fs (<["sync_writes"%string := v]> opts)
    = leveldb.Open ldisk fs (delete "sync_writes"%string opts)
  ∧ badgerdb.Open bdisk fs (<["sync_writes"%string := v]> opts)
    = badgerdb.Open bdisk fs (<["sync_writes"%string := ABool false]> opts)
  ∧ badgerdb.Open bdisk fs (<["sync_writes"%string := v]> opts)
    = badgerdb.Open bdisk fs (delete "sync_writes"%string opts).
Proof.
  intros Hv.
  assert (assert_bool (Some v) = (false, false)) as Hbad.
  { destruct v as [| b | |]; try done. by destruct (Hv b). }
  unfold leveldb.Open, badgerdb.Open.
  rewrite !lookup_insert_eq, lookup_delete_eq.
  rewrite !lookup_insert_ne, lookup_delete_ne by done.
  rewrite Hbad. simpl. done.
Qed.

(** The engine options and the provider that [leveldb.Open] builds: [NoSync]
    is the value of the [sync_writes] option itself. *)
Lemma leveldb_Open_options (disk : goleveldb.Disk) (fs fs' : os.FS)
    (opts : gmap string any) (p : leveldb.Provider) :
  leveldb.Open disk fs opts = (Ok p, fs') →
  goleveldb.NoSync (goleveldb.o (leveldb.db p)) = sync_writes_of opts
  ∧ leveldb.syncWrites p = sync_writes_of opts
  ∧ goleveldb.journal (leveldb.db p) = [].
Proof.
  unfold leveldb.Open, sync_writes_of.
  destruct (assert_string _) as [path [|]]; simpl; [|done].
  destruct (if os.IsNotExist _ then _ else _) as [fs1 [e|]]; [done|].
  destruct (opts !! "sync_writes"%string) as [[]|]; simpl;
    unfold goleveldb.OpenFile; destruct (disk _ _); intros [= <- <-]; done.
Qed.

(** Hence no write through a provider that [leveldb.Open] returned is synced
    before it is acknowledged, whatever the option says. *)
Lemma leveldb_Open_never_synced (disk : goleveldb.Disk) (fs fs' : os.FS)
    (opts : gmap string any) (p : leveldb.Provider) :
  leveldb.Open disk fs opts = (Ok p, fs') →
  goleveldb.synced (goleveldb.o (leveldb.db p))
    (goleveldb.mkWriteOptions (leveldb.syncWrites p)) = false.
Proof.
  intros (Hno & Hsw & _)%leveldb_Open_options.
  unfold goleveldb.synced. simpl. rewrite Hno, Hsw.
  by destruct (sync_writes_of opts).
Qed.

(** The options [badgerdb.Open] hands to the engine are the defaults for the
    path: the [sync_writes] option does not reach them. *)
Lemma badgerdb_Open_options (disk : badger.Disk) (fs fs' : os.FS)
    (opts : gmap string any) (p : badgerdb.Provider) (path : string) :
  opts !! "path"%string = Some (AString path) →
  badgerdb.Open disk fs opts = (Ok p, fs') →
  badger.opt (badgerdb.db p) = badger.DefaultOptions path.
Proof.
  intros Hpath. unfold badgerdb.Open. rewrite Hpath. simpl.
  destruct (if os.IsNotExist _ then _ else _) as [fs1 [e|]]; [done|].
  destruct (opts !! "sync_writes"%string) as [[]|]; simpl;
    unfold badger.Open; destruct (disk _ _); intros [= <- <-]; done.
Qed.

End OpenProperties.

(** ** Batches *)

Section BatchProperties.
Context `{leveldb.Codec}.

Lemma leveldb_batch_records now batch entries :
  ∀ t, foldl goleveldb.apply_op t (foldl (leveldb.add_entry now) batch entries)
       = foldl (leveldb_apply now) (foldl goleveldb.apply_op t batch) entries.
Proof.
  revert batch.
  induction entries as [|e entries IH]; intros batch t; simpl; [done|].
  rewrite IH. f_equal.
  unfold leveldb.add_entry, leveldb_apply, goleveldb.Batch_Delete,
    goleveldb.Batch_Put.
  destruct (Value e); by rewrite foldl_app.
Qed.

Lemma leveldb_Batch_table now p entries p' :
  leveldb.Batch now p entries = (p', None) →
  goleveldb.table (goleveldb.storage (leveldb.db p'))
  = foldl (leveldb_apply now)
      (goleveldb.table (goleveldb.storage (leveldb.db p))) entries
  ∧ goleveldb.read_fault (goleveldb.storage (leveldb.db p'))
    = goleveldb.read_fault (goleveldb.storage (leveldb.db p)).
Proof.
  unfold leveldb.Batch, leveldb.with_db, goleveldb.Write.
  destruct (goleveldb.write_fault _); simpl; [done|].
  intros [= <-]. simpl. split; [|done].
  by rewrite leveldb_batch_records.
Qed.

Lemma leveldb_Batch_failed now p entries p' e :
  leveldb.Batch now p entries = (p', Some e) → p' = p.
Proof.
  unfold leveldb.Batch, leveldb.with_db, goleveldb.Write.
  destruct (goleveldb.write_fault _); simpl; [|done].
  intros [= <- _]. by destruct p.
Qed.

Lemma badger_batch_loop_pending now d entries batch batch' :
  badgerdb.batch_loop now d batch entries = (batch', None) →
  ∀ t, foldl badger.apply_write t (badger.pending batch')
       = foldl (badger_apply now)
           (foldl badger.apply_write t (badger.pending batch)) entries.
Proof.
  revert batch. induction entries as [|e entries IH]; intros batch; simpl.
  - by intros [= <-].
  - unfold badger.Batch_Delete, badger.Batch_SetEntry, badger.Batch_Set,
      badger.Batch_add, badger_apply.
    destruct (Value e) as [v|]; [destruct (0 <? TTL e)%Z|];
      (destruct (badger.refuse _ _); [done|]);
      intros Hloop t; rewrite (IH _ Hloop); simpl; by rewrite foldl_app.
Qed.

Lemma badgerdb_Batch_table now p entries p' :
  badgerdb.Batch now p entries = (p', None) →
  badger.table (badger.storage (badgerdb.db p'))
  = foldl (badger_apply now)
      (badger.table (badger.storage (badgerdb.db p))) entries
  ∧ badger.get_fault (badger.storage (badgerdb.db p'))
    = badger.get_fault (badger.storage (badgerdb.db p))
  ∧ badger.value_fault (badger.storage (badgerdb.db p'))
    = badger.value_fault (badger.storage (badgerdb.db p)).
Proof.
  unfold badgerdb.Batch.
  destruct (badgerdb.batch_loop _ _ _ _) as [batch [e|]] eqn:Hloop; [done|].
  unfold badgerdb.with_db, badger.Flush, badger.commit.
  destruct (badger.commit_fault _); simpl; [done|].
  intros [= <-]. simpl. split; [|done].
  by rewrite (badger_batch_loop_pending _ _ _ _ _ Hloop).
Qed.

Lemma badgerdb_Batch_failed now p entries p' e :
  badgerdb.Batch now p entries = (p', Some e) → p' = p.
Proof.
  unfold badgerdb.Batch.
  destruct (badgerdb.batch_loop _ _ _ _) as [batch [e'|]]; [by intros [= <- _]|].
  unfold badgerdb.with_db, badger.Flush, badger.commit.
  destruct (badger.commit_fault _); simpl; [|done].
  intros [= <- _]. by destruct p.
Qed.


(** C8.  A batch entry whose value is present and empty is an upsert in both
    packages: once the batch has succeeded, a [Get] of its key on a healthy
    engine returns the empty value (while the entry's TTL, if any, has not
    run out), not [ErrKeyNotFound]. *)
Theorem Batch_empty_value_is_stored (now now' : Z) (lp lp' : leveldb.Provider)
    (bp bp' : badgerdb.Provider) (before : list Entry) (k : bytes) (ttl : Z) :
  let entries := before ++ [mkEntry k (Some EmptyString) ttl] in
  leveldb.Batch now lp entries = (lp', None) →
  badgerdb.Batch now bp entries = (bp', None) →
  goleveldb.read_fault (goleveldb.storage (leveldb.db lp)) = None →
  badger.get_fault (badger.storage (badgerdb.db bp)) = None →
  badger.value_fault (badger.storage (badgerdb.db bp)) = None →
  (ttl = 0 ∨ now' < now + ttl)%Z →
  leveldb.Get now' lp' k = (Some EmptyString, None)
  ∧ badgerdb.Get now' bp' k = (Some EmptyString, None).
Proof.
  intros entries Hl Hb Hread Hget Hval Httl. subst entries.
  apply leveldb_Batch_table in Hl as [Hlt Hlr].
  apply badgerdb_Batch_table in Hb as (Hbt & Hbg & Hbv).
  rewrite foldl_app in Hlt. rewrite foldl_app in Hbt. simpl in Hlt, Hbt.
  split.
  - unfold leveldb.Get, goleveldb.Get.
    rewrite Hlr, Hread, Hlt. unfold leveldb_apply at 1. simpl.
    rewrite lookup_insert_eq. simpl.
    rewrite leveldb.decode_encode.
    unfold leveldb.IsExpired, leveldb.EntryToValue. simpl.
    destruct (ttl =? 0)%Z eqn:Hz; simpl; [done|].
    destruct (now + ttl <=? now')%Z eqn:Hle; [lia|done].
  - unfold badgerdb.Get, badger.Txn_Get, badger.ValueCopy.
    rewrite Hbg, Hget, Hbv, Hval, Hbt. unfold badger_apply at 1. simpl.
    rewrite lookup_insert_eq. unfold badger.expired.
    destruct (0 <? ttl)%Z eqn:Hpos; simpl; [|done].
    destruct (now + ttl =? 0)%Z; simpl; [done|].
    destruct (now + ttl <=? now')%Z eqn:Hle; [lia|done].
Qed.

End BatchProperties.

(** ** The order of keys *)

Lemma compare_as_OT (a b : string) :
  String.compare a b = String_as_OT.compare a b.
Proof.
  revert b. induction a as [|c a IH]; intros [|d b]; simpl; done.
Qed.

Lemma compare_refl (a : string) : String.compare a a = Eq.
Proof.
  pose proof (String.compare_antisym a a) as Ha.
  by destruct (String.compare a a).
Qed.

Lemma bytes_lt_trans (a b c : string) :
  gobytes.lt a b → gobytes.lt b c → gobytes.lt a c.
Proof.
  unfold gobytes.lt. rewrite !compare_as_OT.
  apply (@StrictOrder_Transitive _ _ String_as_OT.lt_strorder).
Qed.

Lemma bytes_le_lt_eq (a b : string) :
  gobytes.le a b ↔ gobytes.lt a b ∨ a = b.
Proof.
  unfold gobytes.le, gobytes.lt, String.leb. split.
  - destruct (String.compare a b) eqn:Hc; [|by left|done].
    right. by apply String.compare_eq_iff.
  - intros [Hlt| ->]; [by rewrite Hlt|]. by rewrite compare_refl.
Qed.

Lemma bytes_lt_not_le (a b : string) : gobytes.lt a b → ¬ gobytes.le b a.
Proof.
  unfold gobytes.lt, gobytes.le, String.leb.
  rewrite (String.compare_antisym b a).
  destruct (String.compare a b); simpl; [done| |done]. by intros _ [].
Qed.

Lemma bytes_lt_neq (a b : string) : gobytes.lt a b → a ≠ b.
Proof. intros Hlt ->. unfold gobytes.lt in Hlt. by rewrite compare_refl in Hlt. Qed.

#[local] Instance entry_le_trans : Transitive goleveldb.entry_le.
Proof.
  intros x y z. unfold goleveldb.entry_le. rewrite !bytes_le_lt_eq.
  intros [Hxy|Hxy] [Hyz|Hyz]; try (rewrite ?Hxy, <- ?Hyz; by auto).
  left. by eapply bytes_lt_trans.
Qed.

#[local] Instance entry_le_total : Total goleveldb.entry_le.
Proof.
  intros x y. unfold goleveldb.entry_le, gobytes.le.
  destruct (String.leb_total x.1 y.1) as [->| ->]; auto.
Qed.

Lemma sorted_nodup_strict (l : list (string * string)) :
  StronglySorted goleveldb.entry_le l → NoDup l.*1 → StronglySorted key_lt l.
Proof.
  induction 1 as [|x l Hs IH Hall]; intros Hnd; [constructor|].
  apply NoDup_cons in Hnd as [Hx Hnd].
  constructor; [by apply IH|].
  apply Forall_forall. intros y Hy.
  rewrite Forall_forall in Hall.
  destruct (proj1 (bytes_le_lt_eq _ _) (Hall y Hy)) as [Hlt|Heq]; [done|].
  destruct Hx. rewrite Heq. by apply list_elem_of_fmap_2.
Qed.

Lemma entries_strictly_sorted (t : gmap string string) :
  StronglySorted key_lt (goleveldb.entries t).
Proof.
  apply sorted_nodup_strict.
  - apply StronglySorted_merge_sort; apply _.
  - unfold goleveldb.entries. rewrite merge_sort_Permutation.
    apply NoDup_fst_map_to_list.
Qed.

Lemma strictly_sorted_filter (f : string * string → bool) l :
  StronglySorted key_lt l → StronglySorted key_lt (List.filter f l).
Proof.
  induction 1 as [|x l Hs IH Hall]; simpl; [constructor|].
  destruct (f x); [|done].
  constructor; [done|].
  rewrite Forall_forall in Hall. apply Forall_forall.
  intros y Hy%list_elem_of_In%filter_In. apply Hall, list_elem_of_In, Hy.
Qed.

(** ** The scan loop of package leveldb *)

Section LeveldbScan.
Context `{leveldb.Codec} {S : Type}.

Implicit Types (it : goleveldb.Iterator) (f : S → bytes → bytes → S * option error).

Lemma upcoming_length reverse it :
  length (upcoming reverse it) ≤ length (goleveldb.all it).
Proof.
  unfold upcoming, goleveldb.all.
  destruct (goleveldb.here it); simpl; [|lia].
  rewrite !length_app, length_rev. simpl. destruct reverse; lia.
Qed.

Lemma step_upcoming reverse it x :
  goleveldb.here it = Some x →
  upcoming reverse ((if reverse then goleveldb.Prev else goleveldb.Next) it).2
  = (if reverse then goleveldb.behind it else goleveldb.ahead it)
  ∧ ((if reverse then goleveldb.Prev else goleveldb.Next) it).1
    = goleveldb.Valid ((if reverse then goleveldb.Prev else goleveldb.Next) it).2
  ∧ goleveldb.err ((if reverse then goleveldb.Prev else goleveldb.Next) it).2
    = goleveldb.err it.
Proof.
  intros Hx. destruct reverse.
  - unfold goleveldb.Prev, upcoming. rewrite Hx.
    by destruct (goleveldb.behind it).
  - unfold goleveldb.Next, upcoming. rewrite Hx.
    by destruct (goleveldb.ahead it).
Qed.

Lemma boundary_every_cons offset include (x : bytes * bytes) l :
  boundary_every offset include (x :: l)
  = if bool_decide (is_Some offset) && negb include
       && gobytes.Equal x.1 (default EmptyString offset)
    then boundary_every offset include l
    else x :: boundary_every offset include l.
Proof. unfold boundary_every. simpl. by destruct (_ && _). Qed.

Lemma unexpired_cons now (x : bytes * bytes) l :
  unexpired now (x :: l)
  = if leveldb.IsExpired now (leveldb.BytesToValue x.2)
    then unexpired now l
    else (x.1, leveldb.Value (leveldb.BytesToValue x.2)) :: unexpired now l.
Proof. unfold unexpired. simpl. by destruct (leveldb.IsExpired _ _). Qed.

Lemma leveldb_scan_loop_feeds fuel now (opts : ScanOpts S) f reverse ok it st :
  goleveldb.err it = None →
  ok = goleveldb.Valid it →
  length (upcoming reverse it) < fuel →
  leveldb.scan_loop fuel now opts f
    (if reverse then goleveldb.Prev else goleveldb.Next) ok it st
  = finish (feed f
      (unexpired now
         (boundary_every (Offset opts) (IncludeOffset opts) (upcoming reverse it)))
      st).
Proof.
  revert ok it st.
  induction fuel as [|fuel IH]; intros ok it st Herr -> Hfuel; [lia|].
  cbn [leveldb.scan_loop].
  unfold goleveldb.Valid, goleveldb.Error, goleveldb.Key, goleveldb.Value.
  rewrite Herr.
  destruct (goleveldb.here it) as [[k b]|] eqn:Hhere.
  2: { unfold upcoming. by rewrite Hhere. }
  destruct (step_upcoming reverse it (k, b) Hhere) as (Hup & Hok & Herr').
  destruct ((if reverse then goleveldb.Prev else goleveldb.Next) it)
    as [ok' it'] eqn:Hnext.
  simpl in Hup, Hok, Herr'.
  assert (upcoming reverse it = (k, b) :: upcoming reverse it') as Hcons.
  { rewrite Hup. unfold upcoming. by rewrite Hhere. }
  rewrite Hcons in Hfuel |- *. simpl in Hfuel.
  assert (∀ st', leveldb.scan_loop fuel now opts f
            (if reverse then goleveldb.Prev else goleveldb.Next) ok' it' st'
          = finish (feed f (unexpired now
              (boundary_every (Offset opts) (IncludeOffset opts)
                 (upcoming reverse it'))) st')) as Hrest.
  { intros st'. apply IH; [congruence|done|lia]. }
  rewrite boundary_every_cons.
  cbn [bool_decide_true negb fmap option_fmap option_map default fst snd].
  simpl.
  destruct (bool_decide (is_Some (Offset opts)) && negb (IncludeOffset opts)
            && gobytes.Equal k (default EmptyString (Offset opts))).
  { apply Hrest. }
  rewrite unexpired_cons. simpl.
  destruct (leveldb.IsExpired now (leveldb.BytesToValue b)).
  { apply Hrest. }
  simpl.
  destruct (f st k (leveldb.Value (leveldb.BytesToValue b))) as [st' [e|]].
  - unfold finish. simpl. by destruct (bool_decide (e = ErrScanDone)).
  - apply Hrest.
Qed.

End LeveldbScan.

Section LeveldbCandidates.
Context `{leveldb.Codec} {S : Type}.

Implicit Types (it : goleveldb.Iterator) (f : S → bytes → bytes → S * option error).

Lemma Seek_valid it key :
  (goleveldb.Seek it key).1 = goleveldb.Valid (goleveldb.Seek it key).2
  ∧ goleveldb.err (goleveldb.Seek it key).2 = goleveldb.err it.
Proof.
  unfold goleveldb.Seek.
  by destruct (goleveldb.seek_ge key [] (goleveldb.all it)) as [[b h] a].
Qed.

Lemma Last_valid it :
  (goleveldb.Last it).1 = goleveldb.Valid (goleveldb.Last it).2
  ∧ goleveldb.err (goleveldb.Last it).2 = goleveldb.err it.
Proof. unfold goleveldb.Last. by destruct (rev (goleveldb.all it)). Qed.

(** With a callback, an offset or the reverse direction, and an engine whose
    iterator reports no error, [Scan] feeds the callback the candidates that
    pass the boundary test and have not expired, in the order of the
    visit. *)
Lemma leveldb_Scan_feeds now p prefix offset reverse include f st :
  goleveldb.iter_fault (goleveldb.storage (leveldb.db p)) = None →
  is_Some offset ∨ reverse = true →
  let opts := mkScanOpts prefix offset reverse include (Some f) in
  leveldb.Scan now p opts st
  = finish (feed f
      (unexpired now
         (boundary_every offset include
            (leveldb_candidates p prefix offset reverse)))
      st).
Proof.
  intros Hfault Hseek opts. unfold leveldb.Scan, leveldb_candidates.
  cbn [opts Scanner Prefix Offset ReverseScan IncludeOffset].
  set (iter := match prefix with
               | Some prefix0 =>
                   goleveldb.NewIterator (leveldb.db p)
                     (Some (goleveldb.BytesPrefix prefix0))
               | None => goleveldb.NewIterator (leveldb.db p) None
               end).
  assert (goleveldb.NewIterator (leveldb.db p) (goleveldb.BytesPrefix <$> prefix)
          = iter) as -> by by destruct prefix.
  assert (goleveldb.err iter = None) as Herr by by destruct prefix.
  destruct offset as [offset|].
  - destruct (Seek_valid iter offset) as [Hok Herr'].
    destruct (goleveldb.Seek iter offset) as [ok it]. simpl in Hok, Herr'.
    apply (leveldb_scan_loop_feeds _ now opts f reverse); simpl;
      [by rewrite Herr'|done|].
    pose proof (upcoming_length reverse it). lia.
  - destruct Hseek as [[? [=]]| ->].
    destruct (Last_valid iter) as [Hok Herr'].
    destruct (goleveldb.Last iter) as [ok it]. simpl in Hok, Herr'.
    apply (leveldb_scan_loop_feeds _ now opts f true); simpl;
      [by rewrite Herr'|done|].
    pose proof (upcoming_length true it). lia.
Qed.

(** Without an offset and in the forward direction [seek] is never assigned:
    the call of the nil function value panics before any record is
    visited. *)
Lemma leveldb_Scan_forward_without_offset now p prefix include f st :
  leveldb.Scan now p (mkScanOpts prefix None false include (Some f)) st
  = Panicked st.
Proof. done. Qed.

(** Every leveldb scan with a callback, on an engine whose iterator reports
    no error. *)
Lemma leveldb_Scan_outcome now p prefix offset reverse include f st :
  goleveldb.iter_fault (goleveldb.storage (leveldb.db p)) = None →
  leveldb.Scan now p (mkScanOpts prefix offset reverse include (Some f)) st
  = if bool_decide (is_Some offset) || reverse
    then finish (feed f
           (unexpired now
              (boundary_every offset include
                 (leveldb_candidates p prefix offset reverse)))
           st)
    else Panicked st.
Proof.
  intros Hfault. destruct offset as [offset|]; [|destruct reverse]; simpl.
  - apply leveldb_Scan_feeds; eauto.
  - apply leveldb_Scan_feeds; eauto.
  - done.
Qed.

(** The loop budget [Scan] starts with is never used up. *)
Lemma leveldb_scan_loop_total fuel now (opts : ScanOpts S) f reverse ok it st st' :
  ok = goleveldb.Valid it →
  length (upcoming reverse it) < fuel →
  leveldb.scan_loop fuel now opts f
    (if reverse then goleveldb.Prev else goleveldb.Next) ok it st
  ≠ OutOfFuel st'.
Proof.
  intros Hok Hfuel. destruct (goleveldb.err it) as [e|] eqn:Herr.
  - destruct fuel as [|fuel]; [lia|]. cbn [leveldb.scan_loop].
    unfold goleveldb.Error. rewrite Herr. by destruct (negb ok).
  - by rewrite leveldb_scan_loop_feeds.
Qed.

Lemma leveldb_Scan_total now p (opts : ScanOpts S) st st' :
  leveldb.Scan now p opts st ≠ OutOfFuel st'.
Proof.
  unfold leveldb.Scan. destruct (Scanner opts) as [f|]; [|done].
  set (iter := match Prefix opts with
               | Some prefix =>
                   goleveldb.NewIterator (leveldb.db p)
                     (Some (goleveldb.BytesPrefix prefix))
               | None => goleveldb.NewIterator (leveldb.db p) None
               end).
  destruct (Offset opts) as [offset|]; [|destruct (ReverseScan opts); [|done]].
  - destruct (Seek_valid iter offset) as [Hok _].
    destruct (goleveldb.Seek iter offset) as [ok it]. simpl in Hok.
    apply leveldb_scan_loop_total; [done|].
    pose proof (upcoming_length (ReverseScan opts) it). lia.
  - destruct (Last_valid iter) as [Hok _].
    destruct (goleveldb.Last iter) as [ok it]. simpl in Hok.
    apply (leveldb_scan_loop_total _ now opts f true); [done|].
    pose proof (upcoming_length true it). lia.
Qed.

Lemma seek_ge_split key passed l b h a :
  goleveldb.seek_ge key passed l = (b, h, a) →
  ∃ l1, l = l1 ++ option_list h ++ a
        ∧ b = rev l1 ++ passed
        ∧ Forall (λ x, gobytes.lt x.1 key) l1
        ∧ ∀ x, h = Some x → gobytes.le key x.1.
Proof.
  revert passed. induction l as [|x l IH]; intros passed; simpl.
  - intros [= <- <- <-]. exists []. by repeat split.
  - destruct (String.leb key x.1) eqn:Hle.
    + intros [= <- <- <-]. exists []. repeat split; [done|].
      intros ? [= <-]. unfold gobytes.le. by rewrite Hle.
    + intros (l1 & -> & -> & Hl1 & Hh)%IH.
      exists (x :: l1). repeat split; [|constructor; [|done]|done].
      * simpl. by rewrite <- app_assoc.
      * unfold gobytes.lt. unfold String.leb in Hle.
        rewrite String.compare_antisym.
        by destruct (String.compare key x.1).
Qed.

Lemma NewIterator_all d slice :
  goleveldb.all (goleveldb.NewIterator d slice)
  = List.filter (goleveldb.in_range slice)
      (goleveldb.entries (goleveldb.table (goleveldb.storage d))).
Proof. done. Qed.

(** After a seek to [offset] in a strictly ordered range, no entry after the
    first one has the key [offset], in either direction. *)
Lemma Seek_offset_only_first it offset reverse :
  StronglySorted key_lt (goleveldb.all it) →
  Forall (λ y : bytes * bytes, y.1 ≠ offset)
    (tail (upcoming reverse (goleveldb.Seek it offset).2)).
Proof.
  intros Hsorted. unfold goleveldb.Seek.
  destruct (goleveldb.seek_ge offset [] (goleveldb.all it)) as [[b h] a] eqn:Hs.
  apply seek_ge_split in Hs as (l1 & Hall & -> & Hl1 & Hh).
  unfold upcoming. simpl. destruct h as [x|]; simpl; [|constructor].
  destruct reverse.
  - rewrite app_nil_r. apply Forall_forall.
    intros y Hy%list_elem_of_In%in_rev%list_elem_of_In.
    rewrite Forall_forall in Hl1. by apply bytes_lt_neq, Hl1.
  - rewrite Hall in Hsorted. simpl in Hsorted.
    apply StronglySorted_app_1_r, StronglySorted_cons in Hsorted as [Hx _].
    eapply Forall_impl; [exact Hx|]. intros y Hlt Heq.
    eapply bytes_lt_not_le; [exact Hlt|]. rewrite Heq. by apply Hh.
Qed.

Lemma boundary_every_once offset include (cands : list (bytes * bytes)) :
  Forall (λ y : bytes * bytes, y.1 ≠ offset) (tail cands) →
  boundary_every (Some offset) include cands = boundary_once offset include cands.
Proof.
  destruct cands as [|x rest]; [done|]. intros Hrest. simpl in Hrest.
  assert (boundary_every (Some offset) include rest = rest) as Hid.
  { induction Hrest as [|y rest Hy _ IH]; [done|].
    rewrite boundary_every_cons, IH. simpl.
    unfold gobytes.Equal. apply String.eqb_neq in Hy. rewrite Hy.
    by rewrite andb_false_r. }
  rewrite boundary_every_cons, Hid. unfold boundary_once. simpl.
  rewrite andb_comm. by destruct (_ && _).
Qed.

Lemma leveldb_candidates_boundary_once p prefix offset reverse include :
  boundary_every (Some offset) include
    (leveldb_candidates p prefix (Some offset) reverse)
  = boundary_once offset include
      (leveldb_candidates p prefix (Some offset) reverse).
Proof.
  apply boundary_every_once. unfold leveldb_candidates. simpl.
  apply Seek_offset_only_first. rewrite NewIterator_all.
  apply strictly_sorted_filter, entries_strictly_sorted.
Qed.

End LeveldbCandidates.

(** ** The scan loop of package badgerdb *)

Section BadgerScan.
Context {S : Type}.

Implicit Types (f : S → bytes → bytes → S * option error).

Lemma compare_Eq_eqb (a b : string) :
  bool_decide (String.compare a b = Eq) = gobytes.Equal a b.
Proof.
  unfold gobytes.Equal. destruct (String.eqb_spec a b) as [->|Hne].
  - by rewrite compare_refl.
  - apply bool_decide_eq_false. by intros ?%String.compare_eq_iff.
Qed.

(** Once [checked] is set the loop no longer looks at the offset. *)
Lemma badger_scan_loop_checked d (opts : ScanOpts S) f iter st :
  badger.value_fault (badger.storage d) = None →
  badgerdb.scan_loop d opts f iter true st
  = finish (feed f ((λ i, (badger.Key i, badger.Value i)) <$> iter) st).
Proof.
  intros Hv. revert st. induction iter as [|item iter IH]; intros st; [done|].
  simpl. unfold badger.ValueCopy. rewrite Hv. simpl.
  destruct (f st (badger.Key item) (badger.Value item)) as [st' [e|]].
  - unfold finish. simpl. by destruct (bool_decide (e = ErrScanDone)).
  - apply IH.
Qed.

Lemma badger_scan_loop_first d (opts : ScanOpts S) f iter st :
  badger.value_fault (badger.storage d) = None →
  badgerdb.scan_loop d opts f iter false st
  = finish (feed f
      match Offset opts with
      | Some offset =>
          boundary_once offset (IncludeOffset opts)
            ((λ i, (badger.Key i, badger.Value i)) <$> iter)
      | None => (λ i, (badger.Key i, badger.Value i)) <$> iter
      end st).
Proof.
  intros Hv. destruct iter as [|item iter].
  { by destruct (Offset opts). }
  cbn [badgerdb.scan_loop]. rewrite compare_Eq_eqb.
  destruct (Offset opts) as [offset|]; simpl.
  - unfold boundary_once. simpl. rewrite (andb_comm (negb _)).
    destruct (gobytes.Equal (badger.Key item) offset && negb (IncludeOffset opts)).
    + by apply badger_scan_loop_checked.
    + unfold badger.ValueCopy. rewrite Hv. simpl.
      destruct (f st (badger.Key item) (badger.Value item)) as [st' [e|]].
      * unfold finish. simpl. by destruct (bool_decide (e = ErrScanDone)).
      * by apply badger_scan_loop_checked.
  - unfold badger.ValueCopy. rewrite Hv. simpl.
    destruct (f st (badger.Key item) (badger.Value item)) as [st' [e|]].
    * unfold finish. simpl. by destruct (bool_decide (e = ErrScanDone)).
    * by apply badger_scan_loop_checked.
Qed.

(** With a callback and an engine that can copy every value, [Scan] feeds
    the callback the candidates, the first of which is subject to the
    boundary rule. *)
Lemma badgerdb_Scan_feeds now p prefix offset reverse include f st :
  badger.value_fault (badger.storage (badgerdb.db p)) = None →
  let opts := mkScanOpts prefix offset reverse include (Some f) in
  badgerdb.Scan now p opts st
  = finish (feed f
      match offset with
      | Some o =>
          boundary_once o include (badger_candidates now p prefix offset reverse)
      | None => badger_candidates now p prefix offset reverse
      end st).
Proof.
  intros Hv opts. unfold badgerdb.Scan, badger_candidates.
  cbn [opts Scanner Prefix Offset ReverseScan IncludeOffset
       badger.DefaultIteratorOptions badger.Prefix badger.Reverse].
  rewrite badger_scan_loop_first by done.
  cbn [Offset IncludeOffset].
  by destruct (0 <? gobytes.len prefix)%nat, offset.
Qed.

End BadgerScan.

(** ** The claims about scanning *)

Section ScanClaims.
Import fixtures.

(** C1.  A forward scan without offset over the keys [a], [b], [c] is
    expected to yield [a], [b], [c] and to return.  In package [leveldb] the
    call panics before the callback sees a record (no [seek] is assigned for
    this case), where package [badgerdb] yields [a], [b], [c]; the reverse
    scans yield [c], [b], [a] in both.  With an offset [bb] that is not a key,
    the reverse scan of package [leveldb] starts at [c], the first key
    greater than the offset, where package [badgerdb] starts at [b]. *)
Theorem leveldb_forward_scan_without_offset_panics :
  leveldb.Scan (H := wire.codec) 0 abc_leveldb
    (scan_opts None None false false collect) [] = Panicked []
  ∧ badgerdb.Scan 0 abc_badger (scan_opts None None false false collect) []
    = Returned ["a"; "b"; "c"]%string None
  ∧ leveldb.Scan (H := wire.codec) 0 abc_leveldb
      (scan_opts None None true false collect) []
    = Returned ["c"; "b"; "a"]%string None
  ∧ badgerdb.Scan 0 abc_badger (scan_opts None None true false collect) []
    = Returned ["c"; "b"; "a"]%string None
  ∧ leveldb.Scan (H := wire.codec) 0 abc_leveldb
      (scan_opts None (Some "bb"%string) true false collect) []
    = Returned ["c"; "b"; "a"]%string None
  ∧ badgerdb.Scan 0 abc_badger
      (scan_opts None (Some "bb"%string) true false collect) []
    = Returned ["b"; "a"]%string None.
Proof. repeat split; vm_compute; reflexivity. Qed.

(** C5, as the code has it.  When an offset is set, the boundary rule
    concerns the first candidate alone: a first candidate whose key is the
    offset is dropped unless [IncludeOffset] is set, and every other candidate
    goes on to the next stage whatever its key; in package [leveldb] that
    stage still drops a record whose payload has expired, in package
    [badgerdb] it is the callback.  Over the keys [a], [b], [c] a forward scan
    from offset [b] yields [c] without [IncludeOffset] and [b], [c] with
    it. *)
Theorem Scan_boundary_rule_on_first_candidate `{leveldb.Codec} {S : Type}
    (now : Z) (lp : leveldb.Provider) (bp : badgerdb.Provider)
    (prefix : option bytes) (offset : bytes) (reverse include : bool)
    (f : S → bytes → bytes → S * option error) (st : S) :
  goleveldb.iter_fault (goleveldb.storage (leveldb.db lp)) = None →
  badger.value_fault (badger.storage (badgerdb.db bp)) = None →
  let opts := mkScanOpts prefix (Some offset) reverse include (Some f) in
  (leveldb.Scan now lp opts st
   = finish (feed f
       (unexpired now
          (boundary_once offset include
             (leveldb_candidates lp prefix (Some offset) reverse)))
       st))
  ∧ (badgerdb.Scan now bp opts st
     = finish (feed f
         (boundary_once offset include
            (badger_candidates now bp prefix (Some offset) reverse)) st))
  ∧ leveldb.Scan (H := wire.codec) 0 abc_leveldb
      (scan_opts None (Some "b"%string) false false collect) []
    = Returned ["c"]%string None
  ∧ leveldb.Scan (H := wire.codec) 0 abc_leveldb
      (scan_opts None (Some "b"%string) false true collect) []
    = Returned ["b"; "c"]%string None
  ∧ badgerdb.Scan 0 abc_badger
      (scan_opts None (Some "b"%string) false false collect) []
    = Returned ["c"]%string None
  ∧ badgerdb.Scan 0 abc_badger
      (scan_opts None (Some "b"%string) false true collect) []
    = Returned ["b"; "c"]%string None.
Proof.
  intros Hiter Hval opts. split; [|split].
  - unfold opts. rewrite leveldb_Scan_feeds by eauto.
    by rewrite leveldb_candidates_boundary_once.
  - unfold opts. by rewrite badgerdb_Scan_feeds.
  - repeat split; vm_compute; reflexivity.
Qed.

Lemma Scan_boundary_rule_on_first_candidate_witness :
  leveldb.Scan (H := wire.codec) 0 abc_leveldb
    (scan_opts None (Some "b"%string) true false collect) []
  = finish (feed collect
      (unexpired (H := wire.codec) 0
         (boundary_once "b" false
            (leveldb_candidates abc_leveldb None (Some "b"%string) true)))
      []).
Proof.
  apply (Scan_boundary_rule_on_first_candidate (H := wire.codec) 0 abc_leveldb
           abc_badger None "b" true false collect []); reflexivity.
Defined.

(** The claim C5 as stated fails in package [leveldb]: over the keys [a],
    [b], [c] with the payload of [b] expired, a forward scan from offset [b]
    with [IncludeOffset] set has [b] as its first candidate and does not hand
    it to the callback. *)
Lemma leveldb_included_offset_record_not_emitted :
  fst <$> head (leveldb_candidates b_expired_leveldb None
                  (Some "b"%string) false)
  = Some "b"%string
  ∧ IncludeOffset (scan_opts None (Some "b"%string) false true collect) = true
  ∧ leveldb.Scan (H := wire.codec) 10 b_expired_leveldb
      (scan_opts None (Some "b"%string) false true collect) []
    = Returned ["c"]%string None
  ∧ ¬ ("b"%string ∈ ["c"%string]
       ↔ IncludeOffset (scan_opts None (Some "b"%string) false true collect)
         = true).
Proof.
  split; [vm_compute; reflexivity|]. split; [reflexivity|].
  split; [vm_compute; reflexivity|].
  intros [_ Hin]. specialize (Hin eq_refl).
  apply list_elem_of_singleton in Hin. discriminate.
Qed.

Lemma unexpired_elem `{leveldb.Codec} now (cands : list (bytes * bytes)) k v :
  (k, v) ∈ unexpired now cands →
  ∃ b, (k, b) ∈ cands
       ∧ leveldb.IsExpired now (leveldb.BytesToValue b) = false
       ∧ v = leveldb.Value (leveldb.BytesToValue b).
Proof.
  unfold unexpired. intros ([k' b] & Hin & Hsome)%list_elem_of_omap.
  simpl in Hsome. exists b.
  destruct (leveldb.IsExpired now (leveldb.BytesToValue b)); [done|].
  by injection Hsome as -> ->.
Qed.

Lemma unexpired_skips `{leveldb.Codec} now (l1 l2 : list (bytes * bytes)) x :
  leveldb.IsExpired now (leveldb.BytesToValue x.2) = true →
  unexpired now (l1 ++ x :: l2) = unexpired now l1 ++ unexpired now l2.
Proof.
  intros Hx. unfold unexpired. rewrite omap_app. simpl. by rewrite Hx.
Qed.

(** C6.  In package [leveldb] a stored payload that has expired is never
    surfaced.  [Get] of its key fails with [ErrKeyNotFound] and returns no
    bytes.  A [Scan] that visits records hands the callback exactly the
    candidates that pass the boundary test and have not expired: every record
    the callback sees is unexpired, and an expired candidate is passed over,
    the candidates after it being visited as if it were not there.  (The one
    scan that visits no record is the forward scan without offset, which
    panics before its loop.) *)
Theorem leveldb_expired_payload_is_not_surfaced `{leveldb.Codec} {S : Type}
    (now : Z) (p : leveldb.Provider) (k b : bytes)
    (prefix offset : option bytes) (reverse include : bool)
    (f : S → bytes → bytes → S * option error) (st : S) :
  goleveldb.Get (leveldb.db p) k = (Some b, None) →
  leveldb.IsExpired now (leveldb.BytesToValue b) = true →
  goleveldb.iter_fault (goleveldb.storage (leveldb.db p)) = None →
  leveldb.Get now p k = (None, Some ErrKeyNotFound)
  ∧ leveldb.Scan now p (mkScanOpts prefix offset reverse include (Some f)) st
    = (if bool_decide (is_Some offset) || reverse
       then finish (feed f
              (unexpired now
                 (boundary_every offset include
                    (leveldb_candidates p prefix offset reverse)))
              st)
       else Panicked st)
  ∧ (∀ cands k' v, (k', v) ∈ unexpired now cands →
       ∃ b', (k', b') ∈ cands
             ∧ leveldb.IsExpired now (leveldb.BytesToValue b') = false
             ∧ v = leveldb.Value (leveldb.BytesToValue b'))
  ∧ (∀ l1 l2, unexpired now (l1 ++ (k, b) :: l2)
              = unexpired now l1 ++ unexpired now l2).
Proof.
  intros Hget Hexp Hiter. repeat split.
  - unfold leveldb.Get. rewrite Hget. simpl. by rewrite Hexp.
  - by apply leveldb_Scan_outcome.
  - intros cands k' v. apply unexpired_elem.
  - intros l1 l2. by apply unexpired_skips.
Qed.

Lemma leveldb_expired_payload_is_not_surfaced_witness :
  leveldb.Get (H := wire.codec) 10 b_expired_leveldb "b"
  = (None, Some ErrKeyNotFound)
  ∧ leveldb.Scan (H := wire.codec) 10 b_expired_leveldb
      (scan_opts None None true false collect) []
    = Returned ["c"; "a"]%string None.
Proof.
  destruct (leveldb_expired_payload_is_not_surfaced (H := wire.codec) 10
              b_expired_leveldb "b"
              (wire.encode (leveldb.mkValue "2" (Some 5%Z)))
              None None true false collect [])
    as (Hget & Hscan & _); [reflexivity..|].
  split; [exact Hget|].
  etransitivity; [exact Hscan|]. vm_compute. reflexivity.
Defined.



End ScanClaims.

(** ** The claims about reads, and the remaining examples *)

Section ReadClaims.
Import fixtures.

(** In package [leveldb], [TTL] never looks at the expiry it decodes: for a
    key whose payload has expired [Get] fails with [ErrKeyNotFound] while
    [TTL] returns the expiry and no error.  For a payload without expiry it
    returns no expiry and no error. *)
Lemma leveldb_TTL_ignores_expiry `{leveldb.Codec} (now : Z)
    (p : leveldb.Provider) (k b : bytes) :
  goleveldb.Get (leveldb.db p) k = (Some b, None) →
  leveldb.TTL p k = (leveldb.Expires (leveldb.BytesToValue b), None)
  ∧ (leveldb.IsExpired now (leveldb.BytesToValue b) = true →
     leveldb.Get now p k = (None, Some ErrKeyNotFound)).
Proof.
  intros Hget. unfold leveldb.TTL, leveldb.Get. rewrite Hget. simpl.
  split; [done|]. by intros ->.
Qed.

(** In package [badgerdb], [TTL] and [Get] fail with [ErrKeyNotFound] on the
    same keys: those the engine reports as not found, expired ones
    included. *)
Lemma badgerdb_TTL_not_found_as_Get (now : Z) (p : badgerdb.Provider)
    (k : bytes) :
  (badger.Txn_Get now (badgerdb.db p) k).2 = Some BadgerErrKeyNotFound →
  badgerdb.TTL now p k = (None, Some ErrKeyNotFound)
  ∧ badgerdb.Get now p k = (None, Some ErrKeyNotFound).
Proof.
  unfold badgerdb.TTL, badgerdb.Get.
  destruct (badger.Txn_Get now (badgerdb.db p) k) as [item err]. simpl.
  by intros ->.
Qed.

(** C3.  [TTL] is expected to fail with [ErrKeyNotFound] exactly when [Get]
    does.  For the key [k] whose value expired at time 5, read at time 10,
    [Get] fails with [ErrKeyNotFound] in both packages, and so does [TTL] in
    package [badgerdb]; in package [leveldb], [TTL] returns the past expiry and
    a nil error. *)
Theorem leveldb_TTL_of_expired_key_succeeds :
  leveldb.Get (H := wire.codec) 10 k_expiring_leveldb "k"
  = (None, Some ErrKeyNotFound)
  ∧ leveldb.TTL (H := wire.codec) k_expiring_leveldb "k" = (Some 5%Z, None)
  ∧ badgerdb.Get 10 k_expiring_badger "k" = (None, Some ErrKeyNotFound)
  ∧ badgerdb.TTL 10 k_expiring_badger "k" = (None, Some ErrKeyNotFound).
Proof. repeat split; vm_compute; reflexivity. Qed.

(** C2.  [Open] is expected to make writes synced exactly when the
    [sync_writes] option is true.  In package [leveldb], opening with
    [sync_writes] true switches the engine's [fsync] off ([NoSync] is true),
    so that the write of a [Put] through the returned provider is journalled
    as not synced; with [sync_writes] false no write asks for a sync
    either. *)
Theorem leveldb_Open_sync_writes_switches_fsync_off :
  ∃ p : leveldb.Provider,
    leveldb.Open (H := os.unix) (leveldb_disk empty_leveldb_storage)
      (fs_with ["/data/kv"%string]) (open_opts (ABool true))
    = (Ok p, fs_with ["/data/kv"%string])
    ∧ leveldb.syncWrites p = true
    ∧ goleveldb.NoSync (goleveldb.o (leveldb.db p)) = true
    ∧ goleveldb.journal
        (leveldb.db
           (leveldb.Put (H := wire.codec) 0 p
              (mkEntry "k" (Some "v"%string) 0)).1)
      = [([goleveldb.OpPut "k" (wire.encode (leveldb.mkValue "v" None))], false)].
Proof.
  eexists. split; [vm_compute; reflexivity|]. repeat split.
Qed.

End ReadClaims.

(** ** Instances of the general statements *)

Section Witnesses.
Import fixtures.

Lemma Open_creates_missing_parent_directory_witness :
  os.dirs
    (os.MkdirAll (H := os.unix) (fs_with ["/"%string]) "/data/kv" os.ModePerm).1
    !! "/data/kv"%string = Some os.ModePerm
  ∧ leveldb.Open (H := os.unix) (leveldb_disk empty_leveldb_storage)
      (fs_with ["/"%string]) (open_opts (ABool false))
    = (leveldb_opened (leveldb_disk empty_leveldb_storage)
         (os.MkdirAll (H := os.unix) (fs_with ["/"%string]) "/data/kv"
            os.ModePerm).1
         "/data/kv/db" false,
       (os.MkdirAll (H := os.unix) (fs_with ["/"%string]) "/data/kv"
          os.ModePerm).1).
Proof.
  destruct (Open_creates_missing_parent_directory (H := os.unix)
              (H0 := badger_defaults)
              (leveldb_disk empty_leveldb_storage)
              (badger_disk (badger.mkStorage ∅ None None (λ _, None) None))
              (fs_with ["/"%string]) (open_opts (ABool false)) "/data/kv/db")
    as (Hdir & _ & Hopen & _); [reflexivity..|].
  split; [exact Hdir|exact Hopen].
Defined.

Lemma Open_malformed_sync_writes_is_false_witness :
  leveldb.Open (H := os.unix) (leveldb_disk empty_leveldb_storage)
    (fs_with ["/data/kv"%string]) (open_opts (AString "yes"))
  = leveldb.Open (H := os.unix) (leveldb_disk empty_leveldb_storage)
      (fs_with ["/data/kv"%string]) (open_opts (ABool false)).
Proof.
  apply (Open_malformed_sync_writes_is_false (H := os.unix)
           (H0 := badger_defaults)
           (leveldb_disk empty_leveldb_storage)
           (badger_disk (badger.mkStorage ∅ None None (λ _, None) None))
           (fs_with ["/data/kv"%string])
           {["path"%string := AString "/data/kv/db"]} (AString "yes")).
  intros b. discriminate.
Defined.

Lemma Batch_empty_value_is_stored_witness :
  leveldb.Get (H := wire.codec) 0
    (leveldb.Batch (H := wire.codec) 0 abc_leveldb
       [mkEntry "a" None 0; mkEntry "b" (Some EmptyString) 0]).1 "b"
  = (Some EmptyString, None)
  ∧ badgerdb.Get 0
      (badgerdb.Batch 0 abc_badger
         [mkEntry "a" None 0; mkEntry "b" (Some EmptyString) 0]).1 "b"
    = (Some EmptyString, None).
Proof.
  apply (Batch_empty_value_is_stored (H := wire.codec) 0 0
           abc_leveldb _ abc_badger _ [mkEntry "a" None 0] "b" 0);
    [vm_compute; reflexivity|vm_compute; reflexivity
    |reflexivity|reflexivity|reflexivity|by left].
Defined.

(** A batch of one upsert and one delete whose upsert the engine refuses
    leaves neither change visible. *)
Example badgerdb_refused_batch_changes_nothing :
  badgerdb.Batch 0 (strict_badger (list_to_map [("a", ("1", 0%Z))]%string))
    [mkEntry "a" None 0; mkEntry EmptyString (Some "x"%string) 0]
  = (strict_badger (list_to_map [("a", ("1", 0%Z))]%string),
     Some (ErrorsNew "Key cannot be empty")).
Proof. vm_compute. reflexivity. Qed.

End Witnesses.

(** * Further properties of the providers *)

Import observe.

(** ** Opening *)

Section OpenEdges.
Context `{os.Platform} `{badger.Defaults}.

(** X1.  Without a [path] option that is a string, [Open] fails with the
    error "must specify path" in both packages, before it looks at the file
    system or the engine. *)
Theorem Open_without_path_fails (ldisk : goleveldb.Disk) (bdisk : badger.Disk)
    (fs : os.FS) (opts : gmap string any) :
  (∀ s, opts !! "path"%string ≠ Some (AString s)) →
  leveldb.Open ldisk fs opts = (Err (ErrorsNew "must specify path"), fs)
  ∧ badgerdb.Open bdisk fs opts = (Err (ErrorsNew "must specify path"), fs).
Proof.
  intros Hpath. unfold leveldb.Open, badgerdb.Open.
  destruct (opts !! "path"%string) as [[s| | |]|] eqn:Hp; try done.
  by destruct (Hpath s).
Qed.

(** X2.  [Open] reads the options [path] and [sync_writes] and no other: an
    option under any other name changes nothing. *)
Theorem Open_ignores_other_options (ldisk : goleveldb.Disk)
    (bdisk : badger.Disk) (fs : os.FS) (opts : gmap string any)
    (name : string) (v : any) :
  name ≠ "path"%string →
  name ≠ "sync_writes"%string →
  leveldb.Open ldisk fs (<[name := v]> opts) = leveldb.Open ldisk fs opts
  ∧ badgerdb.Open bdisk fs (<[name := v]> opts) = badgerdb.Open bdisk fs opts.
Proof.
  intros Hp Hs. unfold leveldb.Open, badgerdb.Open.
  by rewrite !lookup_insert_ne.
Qed.

(** X3.  When [Stat] does not report the parent directory as missing (it
    exists, or [Stat] fails in another way), [Open] creates nothing: the file
    system is left as it was and the result is that of opening the engine at
    the path, its error included. *)
Theorem Open_with_parent_present (ldisk : goleveldb.Disk) (bdisk : badger.Disk)
    (fs : os.FS) (opts : gmap string any) (path : string) :
  opts !! "path"%string = Some (AString path) →
  os.IsNotExist (os.Stat fs (os.filepath_Dir path)) = false →
  leveldb.Open ldisk fs opts
  = (leveldb_opened ldisk fs path (sync_writes_of opts), fs)
  ∧ badgerdb.Open bdisk fs opts = (badger_opened bdisk fs path, fs).
Proof.
  intros Hpath Hstat.
  unfold leveldb.Open, badgerdb.Open, leveldb_opened, badger_opened,
    sync_writes_of.
  rewrite Hpath. simpl. rewrite Hstat. split.
  - destruct (opts !! "sync_writes"%string) as [[]|]; simpl;
      by destruct (goleveldb.OpenFile _ _ _ _).
  - destruct (opts !! "sync_writes"%string) as [[]|]; simpl;
      by destruct (badger.Open _ _ _).
Qed.

End OpenEdges.

Section OpenEdgeWitnesses.
Import fixtures.

Lemma Open_without_path_fails_witness :
  leveldb.Open (H := os.unix) (leveldb_disk empty_leveldb_storage)
    (fs_with []) {["path"%string := AInt 7]}
  = (Err (ErrorsNew "must specify path"), fs_with []).
Proof.
  apply (Open_without_path_fails (H := os.unix) (H0 := badger_defaults)
           (leveldb_disk empty_leveldb_storage)
           (badger_disk (badger.mkStorage ∅ None None (λ _, None) None))
           (fs_with []) {["path"%string := AInt 7]}).
  intros s. vm_compute. discriminate.
Defined.

Lemma Open_ignores_other_options_witness :
  leveldb.Open (H := os.unix) (leveldb_disk empty_leveldb_storage)
    (fs_with ["/data/kv"%string])
    (<["cache_size"%string := AInt 64]> (open_opts (ABool false)))
  = leveldb.Open (H := os.unix) (leveldb_disk empty_leveldb_storage)
      (fs_with ["/data/kv"%string]) (open_opts (ABool false)).
Proof.
  apply (Open_ignores_other_options (H := os.unix) (H0 := badger_defaults)
           (leveldb_disk empty_leveldb_storage)
           (badger_disk (badger.mkStorage ∅ None None (λ _, None) None)));
    discriminate.
Defined.

Lemma Open_with_parent_present_witness :
  leveldb.Open (H := os.unix) (leveldb_disk empty_leveldb_storage)
    (fs_with ["/data/kv"%string]) (open_opts (ABool false))
  = (leveldb_opened (leveldb_disk empty_leveldb_storage)
       (fs_with ["/data/kv"%string]) "/data/kv/db" false,
     fs_with ["/data/kv"%string]).
Proof.
  apply (Open_with_parent_present (H := os.unix) (H0 := badger_defaults)
           (leveldb_disk empty_leveldb_storage)
           (badger_disk (badger.mkStorage ∅ None None (λ _, None) None))
           (fs_with ["/data/kv"%string]) (open_opts (ABool false))
           "/data/kv/db"); reflexivity.
Defined.

Lemma Open_mkdir_refused_witness :
  leveldb.Open (H := os.unix) (leveldb_disk empty_leveldb_storage)
    (os.mkFS ∅ None (Some (ErrorsNew "read-only file system")))
    (open_opts (ABool false))
  = (Err (ErrorsNew "read-only file system"),
     os.mkFS ∅ None (Some (ErrorsNew "read-only file system"))).
Proof.
  apply (Open_mkdir_refused (H := os.unix) (H0 := badger_defaults)
           (leveldb_disk empty_leveldb_storage)
           (badger_disk (badger.mkStorage ∅ None None (λ _, None) None))
           (os.mkFS ∅ None (Some (ErrorsNew "read-only file system")))
           (open_opts (ABool false)) "/data/kv/db"); reflexivity.
Defined.

End OpenEdgeWitnesses.

(** ** Single-key operations *)

Section KeyOperations.
Context `{leveldb.Codec}.

Implicit Types (lp : leveldb.Provider) (bp : badgerdb.Provider).

Abbreviation ltable lp := (goleveldb.table (goleveldb.storage (leveldb.db lp))).
Abbreviation btable bp := (badger.table (badger.storage (badgerdb.db bp))).
Abbreviation lread lp := (goleveldb.read_fault (goleveldb.storage (leveldb.db lp))).
Abbreviation bget bp := (badger.get_fault (badger.storage (badgerdb.db bp))).
Abbreviation bvalue bp := (badger.value_fault (badger.storage (badgerdb.db bp))).

(** What [Get] and [TTL] answer, by the payload stored under the key. *)
Lemma leveldb_Get_stored now lp k :
  lread lp = None →
  leveldb.Get now lp k
  = match ltable lp !! k with
    | None => (None, Some ErrKeyNotFound)
    | Some b =>
        if leveldb.IsExpired now (leveldb.BytesToValue b)
        then (None, Some ErrKeyNotFound)
        else (Some (leveldb.Value (leveldb.BytesToValue b)), None)
    end.
Proof.
  intros Hr. unfold leveldb.Get, goleveldb.Get. rewrite Hr.
  by destruct (ltable lp !! k).
Qed.


(** X5.  In package [leveldb], after a [Put] that succeeded, [Get] of the
    key returns the value that was put (the empty value for a nil one) for as
    long as the TTL has not run out, and [TTL] returns the expiry: none for a
    zero TTL, else the time of the [Put] plus the TTL. *)
Theorem leveldb_Put_then_Get (now now' : Z) lp lp' (e : Entry) :
  leveldb.Put now lp e = (lp', None) →
  lread lp = None →
  (TTL e = 0 ∨ now' < now + TTL e)%Z →
  leveldb.Get now' lp' (Key e) = (Some (default EmptyString (Value e)), None)
  ∧ leveldb.TTL lp' (Key e)
    = (if (TTL e =? 0)%Z then None else Some (now + TTL e)%Z, None).
Proof.
  unfold leveldb.Put, leveldb.with_db, goleveldb.Put, goleveldb.Write.
  destruct (goleveldb.write_fault _) eqn:Hw; simpl; [done|].
  intros [= <-] Hr Httl.
  unfold leveldb.Get, leveldb.TTL, goleveldb.Get. simpl.
  rewrite Hr, lookup_insert_eq. simpl. rewrite leveldb.decode_encode.
  unfold leveldb.IsExpired, leveldb.EntryToValue. simpl.
  destruct (TTL e =? 0)%Z eqn:Hz; simpl; [done|].
  destruct (now + TTL e <=? now')%Z eqn:Hle; [lia|done].
Qed.


(** X7.  In package [badgerdb], once the positive TTL of a [Put] has run
    out, [Get] and [TTL] of the key fail with [ErrKeyNotFound]. *)
Theorem badgerdb_Put_expires_after_TTL (now now' : Z) bp bp' (e : Entry) :
  badgerdb.Put now bp e = (bp', None) →
  bget bp = None →
  (0 ≤ now)%Z → (0 < TTL e)%Z → (now + TTL e ≤ now')%Z →
  badgerdb.Get now' bp' (Key e) = (None, Some ErrKeyNotFound)
  ∧ badgerdb.TTL now' bp' (Key e) = (None, Some ErrKeyNotFound).
Proof.
  unfold badgerdb.Put, badgerdb.with_db, badger.Update1, badger.commit.
  destruct (badger.refuse _ _); simpl; [done|].
  destruct (badger.commit_fault _); simpl; [done|].
  intros [= <-] Hg Hnow Hpos Hle.
  unfold badgerdb.Get, badgerdb.TTL, badger.Txn_Get. simpl. rewrite Hg.
  assert ((0 <? TTL e)%Z = true) as -> by lia. simpl.
  rewrite lookup_insert_eq. unfold badger.expired.
  assert ((now + TTL e =? 0)%Z = false) as -> by lia.
  assert ((now + TTL e <=? now')%Z = true) as -> by lia. done.
Qed.

(** X22.  In package [leveldb], once the TTL of a [Put] has run out, [Get] of
    the key fails with [ErrKeyNotFound] (the expiry being the one the value
    codec of the spec attaches to a non-zero TTL). *)
Theorem leveldb_Put_expires_after_TTL (now now' : Z) lp lp' (e : Entry) :
  leveldb.Put now lp e = (lp', None) →
  lread lp = None →
  TTL e ≠ 0%Z → (now + TTL e ≤ now')%Z →
  leveldb.Get now' lp' (Key e) = (None, Some ErrKeyNotFound).
Proof.
  unfold leveldb.Put, leveldb.with_db, goleveldb.Put, goleveldb.Write.
  destruct (goleveldb.write_fault _); simpl; [done|].
  intros [= <-] Hr Hnz Hle.
  unfold leveldb.Get, goleveldb.Get. simpl.
  rewrite Hr, lookup_insert_eq. simpl. rewrite leveldb.decode_encode.
  unfold leveldb.IsExpired, leveldb.EntryToValue. simpl.
  assert ((TTL e =? 0)%Z = false) as -> by lia.
  by assert ((now + TTL e <=? now')%Z = true) as -> by lia.
Qed.


(** X9.  Any other error of the engine's read reaches the caller as it is:
    from [TTL] in package [leveldb], and from [Get] and [TTL] in package
    [badgerdb], with no value and no expiry. *)
Theorem read_errors_pass_through (now : Z) lp bp (k : bytes) (le be : error) :
  lread lp = Some le → le ≠ LeveldbErrNotFound →
  bget bp = Some be → be ≠ BadgerErrKeyNotFound →
  leveldb.TTL lp k = (None, Some le)
  ∧ badgerdb.Get now bp k = (None, Some be)
  ∧ badgerdb.TTL now bp k = (None, Some be).
Proof.
  intros Hr Hle Hg Hbe.
  unfold leveldb.TTL, goleveldb.Get, badgerdb.Get, badgerdb.TTL, badger.Txn_Get.
  rewrite Hr, Hg.
  rewrite !bool_decide_eq_false_2 by congruence. done.
Qed.

(** X10.  After a [Delete] that succeeded, [Get] and [TTL] of the key fail
    with [ErrKeyNotFound], and [Get] of every other key answers as before, in
    both packages. *)
Theorem Delete_then_Get (now : Z) lp lp' bp bp' (k : bytes) :
  leveldb.Delete lp k = (lp', None) →
  badgerdb.Delete bp k = (bp', None) →
  lread lp = None → bget bp = None →
  leveldb.Get now lp' k = (None, Some ErrKeyNotFound)
  ∧ leveldb.TTL lp' k = (None, Some ErrKeyNotFound)
  ∧ badgerdb.Get now bp' k = (None, Some ErrKeyNotFound)
  ∧ badgerdb.TTL now bp' k = (None, Some ErrKeyNotFound)
  ∧ ∀ k', k' ≠ k →
      leveldb.Get now lp' k' = leveldb.Get now lp k'
      ∧ badgerdb.Get now bp' k' = badgerdb.Get now bp k'.
Proof.
  unfold leveldb.Delete, leveldb.with_db, goleveldb.Delete, goleveldb.Write.
  destruct (goleveldb.write_fault _); simpl; [done|]. intros [= <-].
  unfold badgerdb.Delete, badgerdb.with_db, badger.Update1, badger.commit.
  destruct (badger.refuse _ _); simpl; [done|].
  destruct (badger.commit_fault _); simpl; [done|].
  intros [= <-] Hr Hg.
  unfold leveldb.Get, leveldb.TTL, goleveldb.Get, badgerdb.Get, badgerdb.TTL,
    badger.Txn_Get. simpl.
  rewrite Hr, Hg, !lookup_delete_eq. repeat split; try done.
  all: by rewrite lookup_delete_ne.
Qed.

(** X11.  [Delete] of a key that is not stored leaves the table as it is,
    and its error is the engine's alone: the providers do not test for the
    key. *)
Theorem Delete_of_missing_key (lp : leveldb.Provider) (bp : badgerdb.Provider)
    (k : bytes) :
  ltable lp !! k = None → btable bp !! k = None →
  ltable (leveldb.Delete lp k).1 = ltable lp
  ∧ (leveldb.Delete lp k).2
    = goleveldb.write_fault (goleveldb.storage (leveldb.db lp))
  ∧ btable (badgerdb.Delete bp k).1 = btable bp
  ∧ (badgerdb.Delete bp k).2
    = match badger.refuse (badger.storage (badgerdb.db bp)) (badger.WDelete k) with
      | Some e => Some e
      | None => badger.commit_fault (badger.storage (badgerdb.db bp))
      end.
Proof.
  intros Hl Hb.
  unfold leveldb.Delete, leveldb.with_db, goleveldb.Delete, goleveldb.Write.
  unfold badgerdb.Delete, badgerdb.with_db, badger.Update1, badger.commit.
  destruct (goleveldb.write_fault _); simpl;
    (destruct (badger.refuse _ _); simpl;
     [|destruct (badger.commit_fault _); simpl]);
    rewrite ?delete_id by done; done.
Qed.

End KeyOperations.

(** ** Batches and the single-key writes *)

Section BatchEdges.
Context `{leveldb.Codec}.

Implicit Types (lp : leveldb.Provider) (bp : badgerdb.Provider).

Abbreviation ltable lp := (goleveldb.table (goleveldb.storage (leveldb.db lp))).
Abbreviation btable bp := (badger.table (badger.storage (badgerdb.db bp))).

Lemma leveldb_apply_other now entries (t : gmap string string) k :
  k ∉ Key <$> entries →
  foldl (leveldb_apply now) t entries !! k = t !! k.
Proof.
  revert t. induction entries as [|e entries IH]; intros t Hk; [done|].
  simpl. apply not_elem_of_cons in Hk as [Hne Hk]. rewrite IH by done.
  unfold leveldb_apply.
  destruct (Value e); by rewrite ?lookup_insert_ne, ?lookup_delete_ne.
Qed.

Lemma badger_apply_other now entries (t : gmap string (string * Z)) k :
  k ∉ Key <$> entries →
  foldl (badger_apply now) t entries !! k = t !! k.
Proof.
  revert t. induction entries as [|e entries IH]; intros t Hk; [done|].
  simpl. apply not_elem_of_cons in Hk as [Hne Hk]. rewrite IH by done.
  unfold badger_apply.
  destruct (Value e); by rewrite ?lookup_insert_ne, ?lookup_delete_ne.
Qed.

(** X12.  A [Batch], whether it succeeds or fails, leaves [Get] of every key
    that none of its entries names as it was, in both packages. *)
Theorem Batch_leaves_other_keys (now now' : Z) lp bp (entries : list Entry)
    (k : bytes) :
  k ∉ Key <$> entries →
  leveldb.Get now' (leveldb.Batch now lp entries).1 k = leveldb.Get now' lp k
  ∧ badgerdb.Get now' (badgerdb.Batch now bp entries).1 k
    = badgerdb.Get now' bp k.
Proof.
  intros Hk. split.
  - destruct (leveldb.Batch now lp entries) as [lp' [e|]] eqn:Hb; simpl.
    + by apply leveldb_Batch_failed in Hb as ->.
    + apply leveldb_Batch_table in Hb as [Ht Hr].
      unfold leveldb.Get, goleveldb.Get. rewrite Hr, Ht.
      by rewrite leveldb_apply_other.
  - destruct (badgerdb.Batch now bp entries) as [bp' [e|]] eqn:Hb; simpl.
    + by apply badgerdb_Batch_failed in Hb as ->.
    + apply badgerdb_Batch_table in Hb as (Ht & Hg & Hv).
      unfold badgerdb.Get, badger.Txn_Get, badger.ValueCopy.
      rewrite Hg, Hv, Ht. by rewrite badger_apply_other.
Qed.

(** X13.  A batch of one entry is the single-key write: [Put] of the entry
    when its value is present, [Delete] of its key when the value is nil, in
    both packages, with the same result and the same error. *)
Theorem Batch_of_one_entry (now : Z) lp bp (k v : bytes) (ttl : Z) :
  leveldb.Batch now lp [mkEntry k (Some v) ttl]
  = leveldb.Put now lp (mkEntry k (Some v) ttl)
  ∧ leveldb.Batch now lp [mkEntry k None ttl] = leveldb.Delete lp k
  ∧ badgerdb.Batch now bp [mkEntry k (Some v) ttl]
    = badgerdb.Put now bp (mkEntry k (Some v) ttl)
  ∧ badgerdb.Batch now bp [mkEntry k None ttl] = badgerdb.Delete bp k.
Proof.
  split; [done|]. split; [done|].
  unfold badgerdb.Batch, badgerdb.Put, badgerdb.Delete, badgerdb.with_db,
    badger.Update1. simpl.
  unfold badger.Batch_SetEntry, badger.Batch_Set, badger.Batch_Delete,
    badger.Batch_add, badger.Flush.
  destruct bp as [d]. simpl. split.
  - destruct (0 <? ttl)%Z; simpl; by destruct (badger.refuse _ _).
  - by destruct (badger.refuse _ _).
Qed.

Lemma batch_loop_app now d batch l1 l2 :
  badgerdb.batch_loop now d batch (l1 ++ l2)
  = match badgerdb.batch_loop now d batch l1 with
    | (batch1, None) => badgerdb.batch_loop now d batch1 l2
    | (batch1, Some e) => (batch1, Some e)
    end.
Proof.
  revert batch. induction l1 as [|e l1 IH]; intros batch; [done|]. simpl.
  destruct (match Value e with Some _ => _ | None => _ end) as [b [err|]];
    [done|apply IH].
Qed.

Lemma batch_loop_accepts now d d' batch batch' entries b :
  badger.refuse (badger.storage d') = badger.refuse (badger.storage d) →
  badgerdb.batch_loop now d batch entries = (b, None) →
  ∃ b', badgerdb.batch_loop now d' batch' entries = (b', None).
Proof.
  intros Href. revert batch batch'.
  induction entries as [|e entries IH]; intros batch batch'; simpl; [by eauto|].
  unfold badger.Batch_Delete, badger.Batch_SetEntry, badger.Batch_Set,
    badger.Batch_add. rewrite Href.
  destruct (Value e) as [v|]; [destruct (0 <? TTL e)%Z|];
    (destruct (badger.refuse _ _); [done|]); apply IH.
Qed.

(** X14.  A batch that succeeds does to the table what its two halves do one
    after the other, and both halves succeed on their own, in both
    packages. *)
Theorem Batch_of_concatenation (now : Z) lp lp' bp bp' (l1 l2 : list Entry) :
  leveldb.Batch now lp (l1 ++ l2) = (lp', None) →
  badgerdb.Batch now bp (l1 ++ l2) = (bp', None) →
  (∃ lp1 lp2,
     leveldb.Batch now lp l1 = (lp1, None)
     ∧ leveldb.Batch now lp1 l2 = (lp2, None)
     ∧ ltable lp2 = ltable lp')
  ∧ (∃ bp1 bp2,
       badgerdb.Batch now bp l1 = (bp1, None)
       ∧ badgerdb.Batch now bp1 l2 = (bp2, None)
       ∧ btable bp2 = btable bp').
Proof.
  intros Hl Hb. split.
  - pose proof Hl as [Ht _]%leveldb_Batch_table.
    unfold leveldb.Batch, leveldb.with_db, goleveldb.Write in Hl |- *.
    destruct (goleveldb.write_fault (goleveldb.storage (leveldb.db lp)))
      eqn:Hw; [done|]. simpl.
    eexists _, _. split; [reflexivity|]. simpl.
    split; [reflexivity|]. simpl.
    by rewrite Ht, foldl_app, !leveldb_batch_records.
  - pose proof Hb as (Ht & _)%badgerdb_Batch_table.
    unfold badgerdb.Batch in Hb.
    destruct (badgerdb.batch_loop now (badgerdb.db bp) badger.NewWriteBatch
                (l1 ++ l2)) as [b [e|]] eqn:Hloop; [done|].
    rewrite batch_loop_app in Hloop.
    destruct (badgerdb.batch_loop now (badgerdb.db bp) badger.NewWriteBatch l1)
      as [b1 [e|]] eqn:Hloop1; [done|].
    unfold badgerdb.with_db, badger.Flush, badger.commit in Hb.
    destruct (badger.commit_fault (badger.storage (badgerdb.db bp)))
      eqn:Hc; [done|].
    destruct (badgerdb.Batch now bp l1) as [bp1 err1] eqn:Hb1.
    assert (err1 = None) as ->.
    { unfold badgerdb.Batch in Hb1. rewrite Hloop1 in Hb1.
      unfold badgerdb.with_db, badger.Flush, badger.commit in Hb1.
      rewrite Hc in Hb1. by injection Hb1 as _ <-. }
    assert (badger.refuse (badger.storage (badgerdb.db bp1))
            = badger.refuse (badger.storage (badgerdb.db bp))
            ∧ badger.commit_fault (badger.storage (badgerdb.db bp1)) = None)
      as [Href Hc1].
    { unfold badgerdb.Batch in Hb1. rewrite Hloop1 in Hb1.
      unfold badgerdb.with_db, badger.Flush, badger.commit in Hb1.
      rewrite Hc in Hb1. by injection Hb1 as <-. }
    destruct (batch_loop_accepts now (badgerdb.db bp) (badgerdb.db bp1) b1
                badger.NewWriteBatch l2 b Href Hloop) as [b2 Hloop2].
    destruct (badgerdb.Batch now bp1 l2) as [bp2 err2] eqn:Hb2.
    assert (err2 = None) as ->.
    { unfold badgerdb.Batch in Hb2. rewrite Hloop2 in Hb2.
      unfold badgerdb.with_db, badger.Flush, badger.commit in Hb2.
      rewrite Hc1 in Hb2. by injection Hb2 as _ <-. }
    exists bp1, bp2. split; [done|]. split; [done|].
    apply badgerdb_Batch_table in Hb1 as (Ht1 & _).
    apply badgerdb_Batch_table in Hb2 as (Ht2 & _).
    by rewrite Ht2, Ht1, Ht, foldl_app.
Qed.

End BatchEdges.

(** ** What a scan emits *)

Section ScanRecords.
Context `{leveldb.Codec}.

Implicit Types (lp : leveldb.Provider) (bp : badgerdb.Provider)
  (R : string → string → Prop).

Abbreviation by_key R := (λ x y : bytes * bytes, R x.1 y.1).

Lemma feed_keep recs log : feed keep recs log = (log ++ recs, None).
Proof.
  revert log. induction recs as [|[k v] recs IH]; intros log; simpl.
  - by rewrite app_nil_r.
  - rewrite IH. by rewrite <- app_assoc.
Qed.





Lemma elem_of_entries (t : gmap string string) k b :
  (k, b) ∈ goleveldb.entries t ↔ t !! k = Some b.
Proof.
  unfold goleveldb.entries. rewrite merge_sort_Permutation.
  apply elem_of_map_to_list.
Qed.

Lemma elem_of_range lp prefix k b :
  (k, b) ∈ goleveldb.all
             (goleveldb.NewIterator (leveldb.db lp)
                (goleveldb.BytesPrefix <$> prefix))
  ↔ goleveldb.table (goleveldb.storage (leveldb.db lp)) !! k = Some b
    ∧ under prefix k = true.
Proof.
  rewrite NewIterator_all, list_elem_of_In, filter_In, <- list_elem_of_In.
  rewrite elem_of_entries. by destruct prefix.
Qed.

Lemma range_sorted lp prefix :
  StronglySorted key_lt
    (goleveldb.all
       (goleveldb.NewIterator (leveldb.db lp) (goleveldb.BytesPrefix <$> prefix))).
Proof.
  rewrite NewIterator_all.
  apply strictly_sorted_filter, entries_strictly_sorted.
Qed.

Lemma seek_ge_none_ahead key passed l b a :
  goleveldb.seek_ge key passed l = (b, None, a) → a = [].
Proof.
  revert passed. induction l as [|x l IH]; intros passed; simpl.
  - by intros [= _ <-].
  - destruct (String.leb key x.1); [done|apply IH].
Qed.


Lemma bytes_lt_le (a b : string) : gobytes.lt a b → gobytes.le a b.
Proof. intros. apply bytes_le_lt_eq. by left. Qed.





End ScanRecords.

Section BadgerRecords.

Implicit Types (bp : badgerdb.Provider) (i : badger.Item).

Abbreviation item_lt := (λ x y : badger.Item, gobytes.lt (badger.Key x) (badger.Key y)).
Abbreviation to_item :=
  (λ kv : string * (string * Z), badger.mkItem kv.1 kv.2.1 kv.2.2).
Abbreviation to_record := (λ i : badger.Item, (badger.Key i, badger.Value i)).

#[local] Instance item_le_trans : Transitive badger.item_le.
Proof.
  intros x y z. unfold badger.item_le. rewrite !bytes_le_lt_eq.
  intros [Hxy|Hxy] [Hyz|Hyz]; try (rewrite ?Hxy, <- ?Hyz; by auto).
  left. by eapply bytes_lt_trans.
Qed.

#[local] Instance item_le_total : Total badger.item_le.
Proof.
  intros x y. unfold badger.item_le, gobytes.le.
  destruct (String.leb_total (badger.Key x) (badger.Key y)) as [->| ->]; auto.
Qed.







Lemma bytes_lt_le_trans (a b c : string) :
  gobytes.lt a b → gobytes.le b c → gobytes.lt a c.
Proof.
  intros Hab [Hbc| <-]%bytes_le_lt_eq; [|done]. by eapply bytes_lt_trans.
Qed.









End BadgerRecords.

Section ScanContents.
Context `{leveldb.Codec}.

Implicit Types (lp : leveldb.Provider) (bp : badgerdb.Provider).

Lemma elem_of_boundary_every offset include (cands : list (bytes * bytes)) x :
  x ∈ boundary_every offset include cands
  ↔ x ∈ cands
    ∧ match offset with
      | Some o => include = true ∨ x.1 ≠ o
      | None => True
      end.
Proof.
  unfold boundary_every.
  rewrite list_elem_of_In, filter_In, <- list_elem_of_In.
  destruct offset as [o|]; simpl; [|naive_solver].
  unfold gobytes.Equal.
  destruct include, (String.eqb_spec x.1 o); simpl; naive_solver.
Qed.




Lemma leveldb_Get_found now lp k v :
  goleveldb.read_fault (goleveldb.storage (leveldb.db lp)) = None →
  leveldb.Get now lp k = (Some v, None)
  ↔ ∃ b, goleveldb.table (goleveldb.storage (leveldb.db lp)) !! k = Some b
         ∧ leveldb.IsExpired now (leveldb.BytesToValue b) = false
         ∧ v = leveldb.Value (leveldb.BytesToValue b).
Proof.
  intros Hr. rewrite leveldb_Get_stored by done.
  destruct (goleveldb.table _ !! k) as [b|].
  - destruct (leveldb.IsExpired now (leveldb.BytesToValue b)) eqn:Hexp.
    + split; [done|]. intros (b' & [= <-] & Hf & _). congruence.
    + split; [intros [= <-]; by eauto|].
      by intros (b' & [= <-] & _ & ->).
  - split; [done|]. by intros (b' & ? & _).
Qed.


Lemma elem_of_unexpired now (cands : list (bytes * bytes)) k v :
  (k, v) ∈ unexpired now cands
  ↔ ∃ b, (k, b) ∈ cands
         ∧ leveldb.IsExpired now (leveldb.BytesToValue b) = false
         ∧ v = leveldb.Value (leveldb.BytesToValue b).
Proof.
  split; [apply unexpired_elem|].
  intros (b & Hin & Hexp & ->). unfold unexpired.
  apply list_elem_of_omap. exists (k, b). simpl. by rewrite Hexp.
Qed.





End ScanContents.

Section ScanEdges.
Context `{leveldb.Codec}.

Implicit Types (lp : leveldb.Provider) (bp : badgerdb.Provider).

(** The candidates of a leveldb reverse scan from an offset: the first entry
    of the range at or after the offset, then the entries before it, last
    first; none at all when no entry is at or after the offset. *)
Lemma leveldb_candidates_reverse_from lp prefix offset :
  ∃ l1 hh a,
    goleveldb.all
      (goleveldb.NewIterator (leveldb.db lp) (goleveldb.BytesPrefix <$> prefix))
    = l1 ++ option_list hh ++ a
    ∧ Forall (λ x : bytes * bytes, gobytes.lt x.1 offset) l1
    ∧ (∀ x, hh = Some x → gobytes.le offset x.1)
    ∧ (hh = None → a = [])
    ∧ leveldb_candidates lp prefix (Some offset) true
      = match hh with
        | None => []
        | Some x => x :: rev l1
        end.
Proof.
  unfold leveldb_candidates, goleveldb.Seek.
  set (items := goleveldb.all _).
  destruct (goleveldb.seek_ge offset [] items) as [[b h] a] eqn:Hs.
  pose proof Hs as (l1 & Hall & -> & Hl1 & Hh)%seek_ge_split.
  exists l1, h, a. repeat split; try done.
  - intros ->. by apply seek_ge_none_ahead in Hs.
  - unfold upcoming. simpl. destruct h; [|done]. by rewrite app_nil_r.
Qed.

(** X19.  In package [leveldb] a reverse scan from an offset starts at the
    first key of the prefix that is at or after the offset, [h]: it hands the
    callback exactly the records that [Get] finds under the prefix whose key
    is at or before [h], the offset itself only if [IncludeOffset] is set. *)
Theorem leveldb_Scan_reverse_from_offset (now : Z) lp (prefix : option bytes)
    (offset h : bytes) (include : bool) :
  goleveldb.iter_fault (goleveldb.storage (leveldb.db lp)) = None →
  goleveldb.read_fault (goleveldb.storage (leveldb.db lp)) = None →
  is_Some (goleveldb.table (goleveldb.storage (leveldb.db lp)) !! h) →
  under prefix h = true →
  gobytes.le offset h →
  (∀ k, is_Some (goleveldb.table (goleveldb.storage (leveldb.db lp)) !! k) →
        under prefix k = true → gobytes.le offset k → gobytes.le h k) →
  ∃ llog,
    leveldb.Scan now lp (scan_all prefix (Some offset) true include) []
    = Returned llog None
    ∧ ∀ k v, (k, v) ∈ llog
             ↔ leveldb.Get now lp k = (Some v, None)
               ∧ under prefix k = true
               ∧ gobytes.le k h
               ∧ (include = true ∨ k ≠ offset).
Proof.
  intros Hiter Hread [hb Hh] Hunder Hle Hmin.
  exists (unexpired now
            (boundary_every (Some offset) include
               (leveldb_candidates lp prefix (Some offset) true))).
  split.
  { unfold scan_all. rewrite leveldb_Scan_outcome by done. simpl.
    by rewrite feed_keep. }
  intros k v. rewrite elem_of_unexpired, leveldb_Get_found by done.
  setoid_rewrite elem_of_boundary_every.
  pose proof (range_sorted lp prefix) as Hsorted.
  destruct (leveldb_candidates_reverse_from lp prefix offset)
    as (l1 & hh & a & Hall & Hl1 & Hhh & Hnone & ->).
  rewrite Forall_forall in Hl1.
  assert ((h, hb) ∈ l1 ++ option_list hh ++ a) as Hin
    by (rewrite <- Hall; by apply elem_of_range).
  rewrite Hall in Hsorted.
  destruct hh as [[hk hb']|]; simpl in *.
  2: { rewrite (Hnone eq_refl), app_nil_r in Hin.
       destruct (bytes_lt_not_le _ _ (Hl1 _ Hin) Hle). }
  assert (gobytes.le offset hk) as Hok by by apply (Hhh (hk, hb')).
  assert (Forall (λ y : bytes * bytes, gobytes.lt hk y.1) a) as Ha.
  { by apply StronglySorted_app_1_r, StronglySorted_cons in Hsorted as [? _]. }
  rewrite Forall_forall in Ha.
  assert (hk = h) as ->.
  { apply elem_of_app in Hin as [Hin|Hin].
    - destruct (bytes_lt_not_le _ _ (Hl1 _ Hin) Hle).
    - apply elem_of_cons in Hin as [[= -> _]|Hin]; [done|].
      assert ((hk, hb') ∈ goleveldb.all
                (goleveldb.NewIterator (leveldb.db lp)
                   (goleveldb.BytesPrefix <$> prefix))) as Hr.
      { rewrite Hall, elem_of_app, elem_of_cons. auto. }
      apply elem_of_range in Hr as [Hstored Hpre].
      assert (gobytes.le h hk) as Hhk by (apply Hmin; eauto).
      destruct (bytes_lt_not_le _ _ (Ha _ Hin) Hhk). }
  assert (∀ b, (k, b) ∈ (h, hb') :: rev l1
               ↔ (goleveldb.table (goleveldb.storage (leveldb.db lp)) !! k
                  = Some b
                  ∧ under prefix k = true)
                 ∧ gobytes.le k h) as Hmem.
  { intros b. rewrite <- elem_of_range, Hall, elem_of_cons.
    rewrite !elem_of_app, elem_of_cons.
    rewrite (list_elem_of_In (rev l1)), <- in_rev, <- list_elem_of_In.
    split.
    - intros [[= -> ->]|Hk].
      + split; [auto|]. apply bytes_le_lt_eq. by right.
      + split; [auto|].
        eapply bytes_lt_le, bytes_lt_le_trans; [by apply (Hl1 (k, b))|done].
    - intros [[Hk|[[= -> ->]|Hk]] Hkh]; [by right|by left|].
      destruct (bytes_lt_not_le _ _ (Ha _ Hk) Hkh). }
  setoid_rewrite Hmem. simpl. naive_solver.
Qed.

End ScanEdges.

Section ScanFailures.
Context `{leveldb.Codec} {S : Type}.

Implicit Types (lp : leveldb.Provider) (bp : badgerdb.Provider)
  (f : S → bytes → bytes → S * option error).

(** X20.  In package [leveldb] a reverse scan from an offset that lies after
    every key of the prefix never calls the callback and returns success,
    although all those keys are before the offset: the seek finds no key at
    or after the offset and the loop is not entered. *)
Theorem leveldb_Scan_reverse_from_offset_past_keys (now : Z) lp
    (prefix : option bytes) (offset : bytes) (include : bool) f (st : S) :
  goleveldb.iter_fault (goleveldb.storage (leveldb.db lp)) = None →
  (∀ k, is_Some (goleveldb.table (goleveldb.storage (leveldb.db lp)) !! k) →
        under prefix k = true → gobytes.lt k offset) →
  leveldb.Scan now lp (mkScanOpts prefix (Some offset) true include (Some f)) st
  = Returned st None.
Proof.
  intros Hiter Hbefore. rewrite leveldb_Scan_outcome by done.
  destruct (leveldb_candidates_reverse_from lp prefix offset)
    as (l1 & hh & a & Hall & _ & Hhh & _ & ->).
  destruct hh as [[hk hb]|]; [|done].
  assert ((hk, hb) ∈ goleveldb.all
            (goleveldb.NewIterator (leveldb.db lp)
               (goleveldb.BytesPrefix <$> prefix))) as Hr.
  { rewrite Hall, elem_of_app. right. simpl. by left. }
  apply elem_of_range in Hr as [Hstored Hpre].
  destruct (bytes_lt_not_le hk offset); [by eauto|by apply (Hhh (hk, hb))].
Qed.



End ScanFailures.

(** ** Instances of the further properties *)

Section FurtherWitnesses.
Import fixtures broken.

Lemma leveldb_Put_then_Get_witness :
  leveldb.Get (H := wire.codec) 5
    (leveldb.Put (H := wire.codec) 0 abc_leveldb
       (mkEntry "d" (Some "4"%string) 10)).1 "d"
  = (Some "4"%string, None)
  ∧ leveldb.TTL (H := wire.codec)
      (leveldb.Put (H := wire.codec) 0 abc_leveldb
         (mkEntry "d" (Some "4"%string) 10)).1 "d"
    = (Some 10%Z, None).
Proof.
  apply (leveldb_Put_then_Get (H := wire.codec) 0 5 abc_leveldb _
           (mkEntry "d" (Some "4"%string) 10));
    [vm_compute; reflexivity|reflexivity|right; simpl; lia].
Defined.


Lemma badgerdb_Put_expires_after_TTL_witness :
  badgerdb.Get 10
    (badgerdb.Put 0 abc_badger (mkEntry "d" (Some "4"%string) 10)).1 "d"
  = (None, Some ErrKeyNotFound)
  ∧ badgerdb.TTL 10
      (badgerdb.Put 0 abc_badger (mkEntry "d" (Some "4"%string) 10)).1 "d"
    = (None, Some ErrKeyNotFound).
Proof.
  apply (badgerdb_Put_expires_after_TTL 0 10 abc_badger _
           (mkEntry "d" (Some "4"%string) 10));
    [vm_compute; reflexivity|reflexivity|lia|simpl; lia|simpl; lia].
Defined.

Lemma leveldb_Put_expires_after_TTL_witness :
  leveldb.Get (H := wire.codec) 10
    (leveldb.Put (H := wire.codec) 0 abc_leveldb
       (mkEntry "d" (Some "4"%string) 10)).1 "d"
  = (None, Some ErrKeyNotFound).
Proof.
  apply (leveldb_Put_expires_after_TTL (H := wire.codec) 0 10 abc_leveldb _
           (mkEntry "d" (Some "4"%string) 10));
    [vm_compute; reflexivity|reflexivity|simpl; lia|simpl; lia].
Defined.


Lemma read_errors_pass_through_witness :
  leveldb.TTL (H := wire.codec) unreadable_leveldb "a"
  = (None, Some (ErrorsNew "leveldb: corrupted"))
  ∧ badgerdb.Get 0 unreadable_badger "a"
    = (None, Some (ErrorsNew "badger: closed"))
  ∧ badgerdb.TTL 0 unreadable_badger "a"
    = (None, Some (ErrorsNew "badger: closed")).
Proof.
  apply (read_errors_pass_through (H := wire.codec) 0 unreadable_leveldb
           unreadable_badger "a");
    [reflexivity|discriminate|reflexivity|discriminate].
Defined.

Lemma Delete_then_Get_witness :
  leveldb.Get (H := wire.codec) 0
    (leveldb.Delete abc_leveldb "b").1 "b" = (None, Some ErrKeyNotFound)
  ∧ leveldb.TTL (H := wire.codec)
      (leveldb.Delete abc_leveldb "b").1 "b" = (None, Some ErrKeyNotFound)
  ∧ badgerdb.Get 0 (badgerdb.Delete abc_badger "b").1 "b"
    = (None, Some ErrKeyNotFound)
  ∧ badgerdb.TTL 0 (badgerdb.Delete abc_badger "b").1 "b"
    = (None, Some ErrKeyNotFound)
  ∧ ∀ k', k' ≠ "b"%string →
      leveldb.Get (H := wire.codec) 0 (leveldb.Delete abc_leveldb "b").1 k'
      = leveldb.Get (H := wire.codec) 0 abc_leveldb k'
      ∧ badgerdb.Get 0 (badgerdb.Delete abc_badger "b").1 k'
        = badgerdb.Get 0 abc_badger k'.
Proof.
  apply (Delete_then_Get (H := wire.codec) 0 abc_leveldb _ abc_badger _ "b");
    [vm_compute; reflexivity|vm_compute; reflexivity|reflexivity|reflexivity].
Defined.

Lemma Delete_of_missing_key_witness :
  goleveldb.table (goleveldb.storage (leveldb.db (leveldb.Delete abc_leveldb "z").1))
  = goleveldb.table (goleveldb.storage (leveldb.db abc_leveldb))
  ∧ (leveldb.Delete abc_leveldb "z").2 = None.
Proof.
  destruct (Delete_of_missing_key abc_leveldb abc_badger "z")
    as (Ht & He & _); [reflexivity|reflexivity|].
  split; [exact Ht|exact He].
Defined.

Lemma Batch_leaves_other_keys_witness :
  leveldb.Get (H := wire.codec) 0
    (leveldb.Batch (H := wire.codec) 0 abc_leveldb
       [mkEntry "a" None 0; mkEntry "b" (Some "9"%string) 0]).1 "c"
  = leveldb.Get (H := wire.codec) 0 abc_leveldb "c"
  ∧ badgerdb.Get 0
      (badgerdb.Batch 0 abc_badger
         [mkEntry "a" None 0; mkEntry "b" (Some "9"%string) 0]).1 "c"
    = badgerdb.Get 0 abc_badger "c".
Proof.
  apply (Batch_leaves_other_keys (H := wire.codec) 0 0 abc_leveldb abc_badger
           [mkEntry "a" None 0; mkEntry "b" (Some "9"%string) 0] "c").
  vm_compute. intros Hin.
  repeat (apply elem_of_cons in Hin as [Hin|Hin]; [discriminate|]).
  by apply elem_of_nil in Hin.
Defined.

Lemma Batch_of_concatenation_witness :
  ∃ lp1 lp2,
    leveldb.Batch (H := wire.codec) 0 abc_leveldb [mkEntry "a" None 0]
    = (lp1, None)
    ∧ leveldb.Batch (H := wire.codec) 0 lp1 [mkEntry "b" (Some "9"%string) 0]
      = (lp2, None)
    ∧ goleveldb.table (goleveldb.storage (leveldb.db lp2))
      = goleveldb.table
          (goleveldb.storage
             (leveldb.db
                (leveldb.Batch (H := wire.codec) 0 abc_leveldb
                   [mkEntry "a" None 0; mkEntry "b" (Some "9"%string) 0]).1)).
Proof.
  apply (Batch_of_concatenation (H := wire.codec) 0 abc_leveldb _ abc_badger
           (badgerdb.Batch 0 abc_badger
              [mkEntry "a" None 0; mkEntry "b" (Some "9"%string) 0]).1
           [mkEntry "a" None 0] [mkEntry "b" (Some "9"%string) 0]);
    vm_compute; reflexivity.
Defined.





Lemma abc_keys (k : string) :
  is_Some (goleveldb.table (goleveldb.storage (leveldb.db abc_leveldb)) !! k) →
  k = "a"%string ∨ k = "b"%string ∨ k = "c"%string.
Proof.
  intros [b Hk]. apply elem_of_list_to_map_2 in Hk.
  repeat (apply elem_of_cons in Hk as [[= -> _]|Hk]; [by auto|]).
  by apply elem_of_nil in Hk.
Defined.

Lemma leveldb_Scan_reverse_from_offset_witness :
  ∃ llog,
    leveldb.Scan (H := wire.codec) 0 abc_leveldb
      (scan_all None (Some "bb"%string) true false) []
    = Returned llog None
    ∧ ∀ k v, (k, v) ∈ llog
             ↔ leveldb.Get (H := wire.codec) 0 abc_leveldb k = (Some v, None)
               ∧ under None k = true
               ∧ gobytes.le k "c"
               ∧ (false = true ∨ k ≠ "bb"%string).
Proof.
  apply (leveldb_Scan_reverse_from_offset (H := wire.codec) 0 abc_leveldb None
           "bb" "c" false);
    [reflexivity|reflexivity|vm_compute; eauto|reflexivity|vm_compute; exact I|].
  intros k [->|[->| ->]]%abc_keys _ Hle; vm_compute in Hle |- *;
    first [exact I|destruct Hle].
Defined.

Lemma leveldb_Scan_reverse_from_offset_past_keys_witness :
  leveldb.Scan (H := wire.codec) 0 abc_leveldb
    (scan_opts None (Some "d"%string) true false collect) []
  = Returned [] None.
Proof.
  apply (leveldb_Scan_reverse_from_offset_past_keys (H := wire.codec) 0
           abc_leveldb None "d" false collect []); [reflexivity|].
  intros k [->|[->| ->]]%abc_keys _; vm_compute; reflexivity.
Defined.


End FurtherWitnesses.

(** ** Failed single-key writes *)

Section FailedWrites.
Context `{leveldb.Codec}.

(** X23.  A [Put] or a [Delete] that returns an error has changed nothing:
    the provider is as it was before the call, in both packages. *)
Theorem failed_write_changes_nothing (now : Z) (lp lp' : leveldb.Provider)
    (bp bp' : badgerdb.Provider) (e : Entry) (k : bytes) (err : error) :
  (leveldb.Put now lp e = (lp', Some err) → lp' = lp)
  ∧ (leveldb.Delete lp k = (lp', Some err) → lp' = lp)
  ∧ (badgerdb.Put now bp e = (bp', Some err) → bp' = bp)
  ∧ (badgerdb.Delete bp k = (bp', Some err) → bp' = bp).
Proof.
  unfold leveldb.Put, leveldb.Delete, leveldb.with_db, goleveldb.Put,
    goleveldb.Delete, goleveldb.Write.
  unfold badgerdb.Put, badgerdb.Delete, badgerdb.with_db, badger.Update1,
    badger.commit.
  destruct lp as [ld lsync], bp as [bd]. simpl.
  repeat split.
  - destruct (goleveldb.write_fault _); simpl; [|done]. by intros [= <- _].
  - destruct (goleveldb.write_fault _); simpl; [|done]. by intros [= <- _].
  - destruct (badger.refuse _ _); simpl; [by intros [= <- _]|].
    destruct (badger.commit_fault _); simpl; [|done]. by intros [= <- _].
  - destruct (badger.refuse _ _); simpl; [by intros [= <- _]|].
    destruct (badger.commit_fault _); simpl; [|done]. by intros [= <- _].
Qed.

End FailedWrites.

Section FailedWriteWitness.
Import fixtures.

Lemma failed_write_changes_nothing_witness :
  (badgerdb.Put 0 (strict_badger ∅) (mkEntry EmptyString (Some "x"%string) 0)).1
  = strict_badger ∅.
Proof.
  apply (failed_write_changes_nothing (H := wire.codec) 0
           (leveldb_over ∅) (leveldb_over ∅) (strict_badger ∅) _
           (mkEntry EmptyString (Some "x"%string) 0) EmptyString
           (ErrorsNew "Key cannot be empty")).
  vm_compute. reflexivity.
Defined.

End FailedWriteWitness.
